(** * Object tracker: the Track entity, its configuration and its service surface

    A shallow embedding of [src/tracker/track.py], of the attribute
    declarations of [src/config/config.py] and of the reader methods of
    [src/tracker_service.py], followed by the properties of the
    specification that concern them.

    Numeric conventions.  A bounding box is a numpy array of four pixel
    coordinates; they end up in the integer fields of a [Detection], so
    they are integers here ([Z]).  Inside [iou] the differences, products
    and sums are operations on [np.int64] scalars and wrap around at 64
    bits.  The entries of a feature vector are floats with their
    infinities and NaN.  Other floats (distances, relative crop
    coordinates, the quotient of [iou]) are held as rationals ([Q]) and
    compared with [==]; the one float operation whose rounding decides an
    integer result, the product [x1_rel * width] under [int], is rounded to
    binary64 as the processor does. *)

From Stdlib Require Import ZArith QArith Qround Qpower Lia.
From stdpp Require Import base strings list gmap.

Local Open Scope Z_scope.

(** ** Python outcomes *)

Module Py.

(** The exceptions the modelled code can raise. *)
Inductive exn : Type :=
| TypeError
| ZeroDivisionError
| NotImplementedError
| ConfigurationError.

(** The outcome of a call: a returned value or a raised exception. *)
Inductive result (A : Type) : Type :=
| Return (a : A)
| Raise (e : exn).

Arguments Return {A} a.
Arguments Raise {A} e.

Definition bind {A B : Type} (m : result A) (k : A -> result B) : result B :=
  match m with
  | Return a => k a
  | Raise e => Raise e
  end.

Definition returns {A : Type} (m : result A) : Prop :=
  exists a, m = Return a.

Definition raises {A : Type} (m : result A) (e : exn) : Prop :=
  m = Raise e.

(** [a / b] on integers: true division, an error on a zero divisor. *)
Definition truediv (a b : Z) : result Q :=
  if decide (b = 0) then Raise ZeroDivisionError
  else Return (inject_Z a / inject_Z b)%Q.

(** [int(x)] on a float: truncation towards zero. *)
Definition int (x : Q) : Z := Z.quot (Qnum x) (Zpos (Qden x)).

(** Arithmetic on [np.int64] scalars: the exact result wrapped into
    [-2^63, 2^63). *)
Definition wrap64 (z : Z) : Z := (z + 2 ^ 63) mod 2 ^ 64 - 2 ^ 63.

Definition int64_add (a b : Z) : Z := wrap64 (a + b).
Definition int64_sub (a b : Z) : Z := wrap64 (a - b).
Definition int64_mul (a b : Z) : Z := wrap64 (a * b).

(** The integer nearest to a non-negative rational, ties to the even
    one. *)
Definition round_half_even (x : Q) : Z :=
  let n := Qnum x in
  let d := Zpos (Qden x) in
  let q := n / d in
  let r := n mod d in
  if 2 * r <? d then q
  else if d <? 2 * r then q + 1
  else if Z.even q then q else q + 1.

(** The integer part of the binary logarithm of a positive rational. *)
Definition ilog2 (x : Q) : Z :=
  let k := Z.log2 (Qnum x) - Z.log2 (Zpos (Qden x)) in
  if Qle_bool (2 ^ k)%Q x then k else k - 1.

(** The binary64 float nearest to a rational, ties to even: a significand
    of 53 bits, subnormal below [2^-1022].  Magnitudes beyond the largest
    float are not cut off. *)
Definition binary64_pos (x : Q) : Q :=
  let e := Z.max (ilog2 x - 52) (-1074) in
  let m := round_half_even (x * 2 ^ (- e))%Q in
  Qred (inject_Z m * 2 ^ e)%Q.

Definition binary64 (x : Q) : Q :=
  match (x ?= 0)%Q with
  | Eq => 0%Q
  | Gt => binary64_pos x
  | Lt => (- binary64_pos (- x))%Q
  end.

(** [x * n] for a float [x] and an integer [n]: [n] is converted to a
    float and the product is rounded.  A rational that is not itself a
    float stands for the float nearest to it, as a decimal literal does. *)
Definition float_mul_int (x : Q) (n : Z) : Q :=
  binary64 (binary64 x * binary64 (inject_Z n)).

(** A float as an array entry: a finite value, an infinity or NaN. *)
Inductive float64 : Type :=
| Finite (x : Q)
| PosInf
| NegInf
| NaN.

(** [a == b] on floats: NaN equals nothing, itself included. *)
Definition float_eqb (a b : float64) : bool :=
  match a, b with
  | Finite x, Finite y => Qeq_bool x y
  | PosInf, PosInf => true
  | NegInf, NegInf => true
  | _, _ => false
  end.

(** [s * n] on a string: [n] copies, none when [n] is not positive. *)
Fixpoint str_repeat_nat (s : string) (n : nat) : string :=
  match n with
  | O => EmptyString
  | S k => String.append s (str_repeat_nat s k)
  end.

Definition str_mul (s : string) (n : Z) : string :=
  str_repeat_nat s (Z.to_nat n).

End Py.

(** [result] is a monad; stdpp's [x ← m; k] threads the exceptions. *)
#[global] Instance result_ret : MRet Py.result := @Py.Return.
#[global] Instance result_bind : MBind Py.result :=
  fun A B k m => Py.bind m k.

(** ** track.py *)

Module track.

Import Py.

(** A numpy array of shape (4,): a box [x1, y1, x2, y2], or a velocity
    [dx1, dy1, dx2, dy2]. *)
Record Box : Type := array {
  x1 : Z;
  y1 : Z;
  x2 : Z;
  y2 : Z
}.

(** Componentwise [a + b] and [a - b] of numpy. *)
Definition box_add (a b : Box) : Box :=
  array (x1 a + x1 b) (y1 a + y1 b) (x2 a + x2 b) (y2 a + y2 b).

Definition box_sub (a b : Box) : Box :=
  array (x1 a - x1 b) (y1 a - y1 b) (x2 a - x2 b) (y2 a - y2 b).

Definition box_eqb (a b : Box) : bool :=
  (x1 a =? x1 b) && (y1 a =? y1 b) && (x2 a =? x2 b) && (y2 a =? y2 b).

Definition zeros4 : Box := array 0 0 0 0.

(** The attributes of a [Track] object. *)
Record Track : Type := mkTrack {
  track_id : string;
  bbox : Box;
  predicted_bbox : Box;
  feature_vector : list float64;
  age : Z;
  history : list Box;
  velocity : Box;
  distance : Q;
  label : option string;
  persistence : Z;
  min_persistence : Z;
  is_candidate : bool;
  _is_detected : bool
}.

(** Attribute assignment [self.f = v], one setter per attribute that the
    class assigns after construction. *)
Definition set_track_id (self : Track) (v : string) : Track :=
  mkTrack v (bbox self) (predicted_bbox self) (feature_vector self) (age self)
    (history self) (velocity self) (distance self) (label self)
    (persistence self) (min_persistence self) (is_candidate self)
    (_is_detected self).

Definition set_bbox (self : Track) (v : Box) : Track :=
  mkTrack (track_id self) v (predicted_bbox self) (feature_vector self) (age self)
    (history self) (velocity self) (distance self) (label self)
    (persistence self) (min_persistence self) (is_candidate self)
    (_is_detected self).

Definition set_predicted_bbox (self : Track) (v : Box) : Track :=
  mkTrack (track_id self) (bbox self) v (feature_vector self) (age self)
    (history self) (velocity self) (distance self) (label self)
    (persistence self) (min_persistence self) (is_candidate self)
    (_is_detected self).

Definition set_feature_vector (self : Track) (v : list float64) : Track :=
  mkTrack (track_id self) (bbox self) (predicted_bbox self) v (age self)
    (history self) (velocity self) (distance self) (label self)
    (persistence self) (min_persistence self) (is_candidate self)
    (_is_detected self).

Definition set_age (self : Track) (v : Z) : Track :=
  mkTrack (track_id self) (bbox self) (predicted_bbox self) (feature_vector self) v
    (history self) (velocity self) (distance self) (label self)
    (persistence self) (min_persistence self) (is_candidate self)
    (_is_detected self).

Definition set_history (self : Track) (v : list Box) : Track :=
  mkTrack (track_id self) (bbox self) (predicted_bbox self) (feature_vector self)
    (age self) v (velocity self) (distance self) (label self)
    (persistence self) (min_persistence self) (is_candidate self)
    (_is_detected self).

Definition set_velocity (self : Track) (v : Box) : Track :=
  mkTrack (track_id self) (bbox self) (predicted_bbox self) (feature_vector self)
    (age self) (history self) v (distance self) (label self)
    (persistence self) (min_persistence self) (is_candidate self)
    (_is_detected self).

Definition set_distance (self : Track) (v : Q) : Track :=
  mkTrack (track_id self) (bbox self) (predicted_bbox self) (feature_vector self)
    (age self) (history self) (velocity self) v (label self)
    (persistence self) (min_persistence self) (is_candidate self)
    (_is_detected self).

Definition set_persistence (self : Track) (v : Z) : Track :=
  mkTrack (track_id self) (bbox self) (predicted_bbox self) (feature_vector self)
    (age self) (history self) (velocity self) (distance self) (label self)
    v (min_persistence self) (is_candidate self) (_is_detected self).

Definition set__is_detected (self : Track) (v : bool) : Track :=
  mkTrack (track_id self) (bbox self) (predicted_bbox self) (feature_vector self)
    (age self) (history self) (velocity self) (distance self) (label self)
    (persistence self) (min_persistence self) (is_candidate self) v.

(** [Track.__init__]; at a call site [label] defaults to [None] and
    [is_candidate] to [False].  The three [np.array(bbox)] are three
    copies of the same four numbers. *)
Definition __init__ (track_id0 : string) (bbox0 : Box)
    (feature_vector0 : list float64)
    (distance0 : Q) (label0 : option string) (is_candidate0 : bool) : Track :=
  {| track_id := track_id0;
     bbox := bbox0;
     predicted_bbox := bbox0;
     feature_vector := feature_vector0;
     age := 0;
     history := [bbox0];
     velocity := zeros4;
     distance := distance0;
     label := label0;
     persistence := 0;
     min_persistence := 3;
     is_candidate := is_candidate0;
     _is_detected := true |}.

(** [Track.predict] *)
Definition predict (self : Track) : Box :=
  box_add (bbox self) (velocity self).

(** [Track.update]: the seven assignments in source order.  The velocity
    is computed from the old [bbox]; [predict] then reads the new [bbox]
    and the new [velocity]. *)
Definition update (self : Track) (bbox0 : Box) (feature_vector0 : list float64)
    (distance0 : Q) : Track :=
  let self := set_distance self distance0 in
  let self := set_velocity self (box_sub bbox0 (bbox self)) in
  let self := set_bbox self bbox0 in
  let self := set_history self (history self ++ [bbox0]) in
  let self := set_feature_vector self feature_vector0 in
  let self := set_age self 0 in
  set_predicted_bbox self (predict self).

(** [Track.change_track_id] *)
Definition change_track_id (self : Track) (new_track_id : string) : Track :=
  set_track_id self new_track_id.

(** [Track.increment_persistence] *)
Definition increment_persistence (self : Track) : Track :=
  set_persistence self (persistence self + 1).

(** [Track.get_persistence] *)
Definition get_persistence (self : Track) : Z := persistence self.

(** [Track.increment_age]: [age] grows by one, then [bbox] takes the value
    of [predict]; [predicted_bbox] is not assigned. *)
Definition increment_age (self : Track) : Track :=
  let self := set_age self (age self + 1) in
  set_bbox self (predict self).

(** [Track.set_is_detected], [Track.unset_is_detected], [Track.is_detected] *)
Definition set_is_detected (self : Track) : Track := set__is_detected self true.
Definition unset_is_detected (self : Track) : Track := set__is_detected self false.
Definition is_detected (self : Track) : bool := _is_detected self.

(** *** Equality *)

(** The values [__eq__] can be handed as [other]. *)
Inductive object : Type :=
| OTrack (t : Track)
| ONone
| OInt (n : Z)
| OFloat (x : Q)
| OStr (s : string)
| OArray (b : Box).

(** [np.array_equal] on two boxes (same shape by construction). *)
Definition array_equal_box (a b : Box) : bool := box_eqb a b.

(** [np.array_equal] on two one-dimensional vectors: same length and
    equal entries, as [==] on floats has it. *)
Fixpoint array_equal (a b : list float64) : bool :=
  match a, b with
  | [], [] => true
  | x :: a', y :: b' => float_eqb x y && array_equal a' b'
  | _, _ => false
  end.

(** [Track.__eq__] *)
Definition __eq__ (self : Track) (other : object) : bool :=
  match other with
  | OTrack other =>
      bool_decide (track_id self = track_id other)
      && array_equal_box (bbox self) (bbox other)
      && array_equal (feature_vector self) (feature_vector other)
  | _ => false
  end.

(** *** Geometry *)

(** [Track.iou]: the track's side of the comparison is [predicted_bbox];
    the other box is an array of the same kind.  The coordinates are
    [np.int64] scalars, so every difference, product and sum wraps around.
    The result is the float [inter_area / union_area] when the union is
    positive and the integer [0] otherwise. *)
Definition iou (self : Track) (bbox0 : Box) : result Q :=
  let '(array x1_t y1_t x2_t y2_t) := predicted_bbox self in
  let '(array x1_o y1_o x2_o y2_o) := bbox0 in
  let x1_inter := Z.max x1_t x1_o in
  let y1_inter := Z.max y1_t y1_o in
  let x2_inter := Z.min x2_t x2_o in
  let y2_inter := Z.min y2_t y2_o in
  let inter_area :=
    int64_mul (Z.max 0 (int64_sub x2_inter x1_inter))
              (Z.max 0 (int64_sub y2_inter y1_inter)) in
  let track_area := int64_mul (int64_sub x2_t x1_t) (int64_sub y2_t y1_t) in
  let other_area := int64_mul (int64_sub x2_o x1_o) (int64_sub y2_o y1_o) in
  let union_area := int64_sub (int64_add track_area other_area) inter_area in
  if decide (union_area > 0) then truediv inter_area union_area
  else Return 0%Q.

(** *** The reader-facing detection *)

(** [viam.services.vision.Detection], with the fields the method sets. *)
Record Detection : Type := mkDetection {
  x_min : Z;
  y_min : Z;
  x_max : Z;
  y_max : Z;
  confidence : Q;
  class_name : string
}.

(** [Track.progress_bar] *)
Definition progress_bar (self : Track) (current_progress min_persistence0 : Z)
    : string :=
  let progress_char := " *"%string in
  let empty_char := " ."%string in
  let current_progress :=
    if decide (persistence self > min_persistence0) then min_persistence0
    else current_progress in
  let bar :=
    String.append (str_mul progress_char current_progress)
                  (str_mul empty_char (min_persistence0 - current_progress)) in
  String.append "tracking" (String.append "  [" (String.append bar "]")).

(** [Track._get_class_name] *)
Definition _get_class_name (self : Track) : string :=
  if is_candidate self then progress_bar self (persistence self) (min_persistence self)
  else track_id self.

(** Truth value of [crop_region]: [None] and the empty dict are false. *)
Definition truthy (crop_region : option (gmap string Q)) : bool :=
  match crop_region with
  | None => false
  | Some d => negb (Nat.eqb (size d) 0)
  end.

(** [x * n] for a float [x] and an argument that may be [None]: the
    rounded float product, or a [TypeError]. *)
Definition mul_float (x : Q) (n : option Z) : result Q :=
  match n with
  | Some n => Return (float_mul_int x n)
  | None => Raise TypeError
  end.

(** [n - 1] for an argument that may be [None]. *)
Definition sub_one (n : option Z) : result Z :=
  match n with
  | Some n => Return (n - 1)
  | None => Raise TypeError
  end.

(** [Track.get_detection] *)
Definition get_detection (self : Track) (crop_region : option (gmap string Q))
    (original_image_width original_image_height : option Z) : result Detection :=
  let class_name0 := _get_class_name self in
  let '(array x_min0 y_min0 x_max0 y_max0) := bbox self in
  if truthy crop_region then
    let d := default ∅ crop_region in
    xo ← mul_float (default 0%Q (d !! "x1_rel"%string)) original_image_width;
    let x_offset := int xo in
    yo ← mul_float (default 0%Q (d !! "y1_rel"%string)) original_image_height;
    let y_offset := int yo in
    w1 ← sub_one original_image_width;
    h1 ← sub_one original_image_height;
    let x_min1 := Z.min w1 (x_min0 + x_offset) in
    let y_min1 := Z.min h1 (y_min0 + y_offset) in
    let x_max1 := Z.min w1 (x_max0 + x_offset) in
    let y_max1 := Z.min h1 (y_max0 + y_offset) in
    Return (mkDetection x_min1 y_min1 x_max1 y_max1 (1 - distance self)%Q class_name0)
  else
    Return (mkDetection x_min0 y_min0 x_max0 y_max0 (1 - distance self)%Q class_name0).

(** *** Histories of a track *)

(** The state-changing methods of the class, as the steps of a track's
    life after construction. *)
Inductive operation : Type :=
| Update (bbox0 : Box) (feature_vector0 : list float64) (distance0 : Q)
| IncrementAge
| IncrementPersistence
| ChangeTrackId (new_track_id : string)
| SetIsDetected
| UnsetIsDetected.

Definition step (self : Track) (o : operation) : Track :=
  match o with
  | Update b f d => update self b f d
  | IncrementAge => increment_age self
  | IncrementPersistence => increment_persistence self
  | ChangeTrackId s => change_track_id self s
  | SetIsDetected => set_is_detected self
  | UnsetIsDetected => unset_is_detected self
  end.

(** The track after a sequence of method calls, oldest first. *)
Definition run (self : Track) (os : list operation) : Track :=
  fold_left step os self.

(** *** Vocabulary of the properties *)

(** [predicted_bbox] is [bbox + velocity]. *)
Definition prediction_fresh (t : Track) : Prop :=
  predicted_bbox t = box_add (bbox t) (velocity t).

(** Ordered corners, as the data model asks of a box. *)
Definition valid_box (b : Box) : Prop := x1 b <= x2 b /\ y1 b <= y2 b.

Definition area (b : Box) : Z := (x2 b - x1 b) * (y2 b - y1 b).

(** The two areas [iou] computes, named. *)
Definition inter_area (a b : Box) : Z :=
  Z.max 0 (Z.min (x2 a) (x2 b) - Z.max (x1 a) (x1 b))
  * Z.max 0 (Z.min (y2 a) (y2 b) - Z.max (y1 a) (y1 b)).

Definition union_area (a b : Box) : Z := area a + area b - inter_area a b.

(** Coordinates of magnitude below [2^30]: no difference, area or sum of
    areas of such boxes leaves the range of [np.int64]. *)
Definition pixel_range (b : Box) : Prop :=
  - 2 ^ 30 < x1 b < 2 ^ 30 /\ - 2 ^ 30 < y1 b < 2 ^ 30
  /\ - 2 ^ 30 < x2 b < 2 ^ 30 /\ - 2 ^ 30 < y2 b < 2 ^ 30.

(** Equal as floats. *)
Definition float_eq (a b : float64) : Prop := float_eqb a b = true.

(** No entry is NaN. *)
Definition nan_free (v : list float64) : Prop := Forall (fun x => x <> NaN) v.

(** The offset [int(crop_region.get(key, 0.0) * dimension)] that
    [get_detection] adds to a coordinate. *)
Definition crop_offset (crop : gmap string Q) (key : string) (dimension : Z) : Z :=
  int (float_mul_int (default 0%Q (crop !! key)) dimension).

(** No common interior point: one box lies entirely on one side of the
    other. *)
Definition disjoint (a b : Box) : Prop :=
  x2 a <= x1 b \/ x2 b <= x1 a \/ y2 a <= y1 b \/ y2 b <= y1 a.

(** The progress indicator of a candidate with persistence [p] and
    threshold [m]: [min p m] stars, then dots up to [m]. *)
Definition progress_indicator (p m : Z) : string :=
  String.append "tracking  ["
    (String.append
       (String.append (str_mul " *" (Z.min p m)) (str_mul " ." (m - Z.min p m)))
       "]").

End track.

(** ** config.py *)

Module config.

Import Py.

(** The scalar kinds of a protobuf [Value], as found in
    [config.attributes.fields]. *)
Inductive Value : Type :=
| null_value
| number_value (x : Q)
| string_value (s : string)
| bool_value (b : bool).

(** [ServiceConfig]: the name and the attribute fields. *)
Record ServiceConfig : Type := mkServiceConfig {
  name : string;
  attributes : gmap string Value
}.

(** Modelled from the spec: [src/config/attribute.py] is missing, so the
    class [IntAttribute] is given by the keyword arguments of its call
    sites in [config.py] ([min_value], [max_value] and [default_value]
    are optional). *)
Record IntAttribute : Type := mkIntAttribute {
  int_field_name : string;
  int_min_value : option Z;
  int_max_value : option Z;
  int_default_value : option Z
}.

(** Modelled from the spec: [src/config/attribute.py] is missing, so the
    class [StringAttribute] is given by the keyword arguments of its call
    sites in [config.py] ([default_value] may be [None], [allowlist] is
    optional). *)
Record StringAttribute : Type := mkStringAttribute {
  str_field_name : string;
  str_default_value : option string;
  allowlist : option (list string)
}.

(** Modelled from the spec: the bounds check of the missing
    [IntAttribute.validate]; a bound that is not declared does not
    constrain. *)
Definition in_bounds (lo hi : option Z) (n : Z) : bool :=
  match lo with Some l => l <=? n | None => true end
  && match hi with Some h => n <=? h | None => true end.

(** Modelled from the spec: [IntAttribute.validate] is missing.  A
    parameter that is absent takes its default; a parameter that is
    present must be an integral number within the declared bounds, and is
    otherwise invalid, which is a configuration error. *)
Definition IntAttribute_validate (a : IntAttribute) (config0 : ServiceConfig)
    : result (option Z) :=
  match attributes config0 !! int_field_name a with
  | None => Return (int_default_value a)
  | Some (number_value x) =>
      if Qeq_bool x (inject_Z (int x))
         && in_bounds (int_min_value a) (int_max_value a) (int x)
      then Return (Some (int x))
      else Raise ConfigurationError
  | Some _ => Raise ConfigurationError
  end.

(** Modelled from the spec: [StringAttribute.validate] is missing.  A
    parameter that is absent takes its default; a parameter that is
    present must be a string, and one of the allowed values when the
    attribute lists them ([feature_distance_metric {cosine|euclidean}]),
    and is otherwise invalid, which is a configuration error. *)
Definition StringAttribute_validate (a : StringAttribute) (config0 : ServiceConfig)
    : result (option string) :=
  match attributes config0 !! str_field_name a with
  | None => Return (str_default_value a)
  | Some (string_value s) =>
      match allowlist a with
      | None => Return (Some s)
      | Some l =>
          if bool_decide (s ∈ l) then Return (Some s)
          else Raise ConfigurationError
      end
  | Some _ => Raise ConfigurationError
  end.

(** [TrackingConfig.__init__], the attribute [min_track_persistence]. *)
Definition min_track_persistence_attribute : IntAttribute :=
  {| int_field_name := "min_track_persistence";
     int_min_value := Some 0;
     int_max_value := None;
     int_default_value := Some 4 |}.

Definition TrackingConfig_min_track_persistence (config0 : ServiceConfig)
    : result (option Z) :=
  IntAttribute_validate min_track_persistence_attribute config0.

(** [TrackingConfig.__init__], the attribute [feature_distance_metric]. *)
Definition feature_distance_metric_attribute : StringAttribute :=
  {| str_field_name := "feature_distance_metric";
     str_default_value := Some "cosine"%string;
     allowlist := Some ["cosine"; "euclidean"]%string |}.

Definition TrackingConfig_feature_distance_metric (config0 : ServiceConfig)
    : result (option string) :=
  StringAttribute_validate feature_distance_metric_attribute config0.

(** [EmbedderConfig.__init__], the attribute [embedder_distance]. *)
Definition embedder_distance_attribute : StringAttribute :=
  {| str_field_name := "embedder_distance";
     str_default_value := Some "cosine"%string;
     allowlist := Some ["cosine"; "euclidean"; "manhattan"]%string |}.

Definition EmbedderConfig_embedder_distance (config0 : ServiceConfig)
    : result (option string) :=
  StringAttribute_validate embedder_distance_attribute config0.

(** A configuration that sets the one attribute [k] to the string [s]
    on top of [config0]. *)
Definition with_string (config0 : ServiceConfig) (k s : string) : ServiceConfig :=
  {| name := name config0;
     attributes := <[k := string_value s]> (attributes config0) |}.

End config.

(** ** tracker_service.py *)

Module tracker_service.

Import Py.

(** [ViamImage]: encoded bytes and a mime type. *)
Record ViamImage : Type := mkViamImage {
  data : list Byte.byte;
  mime_type : string
}.

(** What a reader method hands back when it returns normally: a list of
    detections, or, as the source has it, the exception class itself as
    an ordinary object. *)
Inductive returned : Type :=
| detections (ds : list track.Detection)
| exception_class (e : exn).

(** [TrackerService.get_object_point_clouds]: [raise NotImplementedError]. *)
Definition get_object_point_clouds (camera_name : string) : result returned :=
  Raise NotImplementedError.

(** [TrackerService.get_detections]: [return NotImplementedError]. *)
Definition get_detections (image : ViamImage) : result returned :=
  Return (exception_class NotImplementedError).

(** [TrackerService.get_classifications]: [return NotImplementedError]. *)
Definition get_classifications (image : ViamImage) (count : Z) : result returned :=
  Return (exception_class NotImplementedError).

(** [TrackerService.get_classifications_from_camera]:
    [return NotImplementedError]. *)
Definition get_classifications_from_camera (camera_name : string) (count : Z)
    : result returned :=
  Return (exception_class NotImplementedError).

End tracker_service.

(** ** Crop regions of the scenarios *)

(** The crop region of the scenario: the central half of the frame. *)
Definition central_crop : gmap string Q :=
  <["x1_rel"%string := (1 # 4)%Q]>
    (<["y1_rel"%string := (1 # 4)%Q]>
       (<["x2_rel"%string := (3 # 4)%Q]>
          (<["y2_rel"%string := (3 # 4)%Q]> ∅))).


(** ** Further vocabulary *)

(** [k * v] on a numpy array of shape (4,). *)
Definition box_scale (k : Z) (v : track.Box) : track.Box :=
  track.array (k * track.x1 v) (k * track.y1 v) (k * track.x2 v) (k * track.y2 v).

(** [k] consecutive cycles without a match. *)
Definition misses (k : nat) : list track.operation := repeat track.IncrementAge k.

(** The boxes handed to [update] along a history, oldest first. *)
Fixpoint observed (os : list track.operation) : list track.Box :=
  match os with
  | [] => []
  | track.Update b _ _ :: os' => b :: observed os'
  | _ :: os' => observed os'
  end.

(** ** config.py: the declared attributes *)

Module config_table.

(** Modelled from the spec: [src/config/attribute.py] is missing, so the
    class [FloatAttribute] is given by the keyword arguments of its call
    sites in [config.py]; the decimal literals are exact rationals. *)
Record FloatAttribute : Type := mkFloatAttribute {
  float_field_name : string;
  float_min_value : option Q;
  float_max_value : option Q;
  float_default_value : option Q
}.

(** Modelled from the spec: [src/config/attribute.py] is missing, so the
    class [BoolAttribute] is given by the keyword arguments of its call
    sites in [config.py]. *)
Record BoolAttribute : Type := mkBoolAttribute {
  bool_field_name : string;
  bool_default_value : option bool
}.

(** Modelled from the spec: [src/config/attribute.py] is missing, so the
    class [DictAttribute] is given by the keyword arguments of its call
    sites in [config.py]: its default is [None] at both of them, and
    [fields] lists float attributes when given. *)
Record DictAttribute : Type := mkDictAttribute {
  dict_field_name : string;
  dict_fields : list FloatAttribute
}.

(** An attribute declaration of any of the five classes. *)
Inductive Attribute : Type :=
| Float (a : FloatAttribute)
| Int (a : config.IntAttribute)
| String (a : config.StringAttribute)
| Bool (a : BoolAttribute)
| Dict (a : DictAttribute).

Definition field_name (a : Attribute) : string :=
  match a with
  | Float a => float_field_name a
  | Int a => config.int_field_name a
  | String a => config.str_field_name a
  | Bool a => bool_field_name a
  | Dict a => dict_field_name a
  end.

Definition float_attr (n : string) (lo hi d : option Q) : Attribute :=
  Float (mkFloatAttribute n lo hi d).
Definition int_attr (n : string) (lo hi d : option Z) : Attribute :=
  Int (config.mkIntAttribute n lo hi d).
Definition string_attr (n : string) (d : option string) (l : option (list string))
    : Attribute :=
  String (config.mkStringAttribute n d l).
Definition bool_attr (n : string) (d : option bool) : Attribute :=
  Bool (mkBoolAttribute n d).

(** [TrackingConfig.__init__]: the thirteen declarations, in order. *)
Definition TrackingConfig_attributes : list Attribute :=
  [ float_attr "re_id_threshold" (Some 0%Q) None (Some (3 # 10)%Q);
    Int config.min_track_persistence_attribute;
    float_attr "lambda_value" (Some 0%Q) (Some 1%Q) (Some (95 # 100)%Q);
    int_attr "max_age_track" (Some 0) (Some 100000) (Some 1000);
    float_attr "min_distance_threshold" (Some 0%Q) (Some 1%Q) (Some (3 # 10)%Q);
    String config.feature_distance_metric_attribute;
    float_attr "max_frequency_hz" (Some (1 # 10)%Q) (Some 100%Q) (Some 10%Q);
    float_attr "cooldown_period_s" (Some 0%Q) None (Some 5%Q);
    bool_attr "start_fresh" (Some false);
    bool_attr "save_to_db" (Some true);
    bool_attr "_start_background_loop" (Some true);
    string_attr "path_to_known_persons" None None;
    Dict (mkDictAttribute "crop_region"
            [ mkFloatAttribute "x1_rel" (Some 0%Q) (Some 1%Q) None;
              mkFloatAttribute "y1_rel" (Some 0%Q) (Some 1%Q) None;
              mkFloatAttribute "x2_rel" (Some 0%Q) (Some 1%Q) None;
              mkFloatAttribute "y2_rel" (Some 0%Q) (Some 1%Q) None ]) ]%string.

(** [DetectorConfig.__init__] *)
Definition DetectorConfig_attributes : list Attribute :=
  [ string_attr "detector_name" (Some "None") None;
    Dict (mkDictAttribute "chosen_labels" []);
    string_attr "detector_device" (Some "cpu") (Some ["cpu"; "cuda"]);
    bool_attr "_enable_debug_tools" (Some false);
    string_attr "_path_to_debug_directory" None None;
    int_attr "_max_size_debug_directory" None None (Some 200) ]%string.

(** [FaceIdConfig.__init__] *)
Definition FaceIdConfig_attributes : list Attribute :=
  [ string_attr "path_to_known_faces" None None;
    string_attr "face_detector_device" (Some "cpu") (Some ["cpu"; "cuda"]);
    string_attr "face_detector_model" (Some "ultraface_version-RFB-320-int8") None;
    float_attr "face_detection_threshold" (Some 0%Q) (Some 1%Q) (Some (9 # 10)%Q);
    string_attr "face_feature_extractor_model" (Some "facenet") None;
    float_attr "cosine_id_threshold" (Some 0%Q) (Some 1%Q) (Some (3 # 10)%Q);
    float_attr "euclidean_id_threshold" (Some 0%Q) (Some 1%Q) (Some (9 # 10)%Q) ]%string.

(** [EmbedderConfig.__init__] *)
Definition EmbedderConfig_attributes : list Attribute :=
  [ string_attr "embedder_model" None None;
    String config.embedder_distance_attribute;
    int_attr "embedder_input_height" None None (Some 112);
    int_attr "embedder_input_width" None None (Some 112);
    string_attr "embedder_input_name" (Some "input") None;
    string_attr "embedder_output_name" (Some "output") None;
    string_attr "embedder_device" (Some "cuda") (Some ["cpu"; "cuda"]) ]%string.

(** [TrackerConfig.__init__]: the four classes in the order they are
    constructed. *)
Definition TrackerConfig_attributes : list Attribute :=
  TrackingConfig_attributes ++ DetectorConfig_attributes
  ++ EmbedderConfig_attributes ++ FaceIdConfig_attributes.

(** A declared default lies within the declared bounds, or is one of the
    allowed values. *)
Definition float_in_bounds (lo hi : option Q) (x : Q) : bool :=
  match lo with Some l => Qle_bool l x | None => true end
  && match hi with Some h => Qle_bool x h | None => true end.

Definition default_admissible (a : Attribute) : bool :=
  match a with
  | Float a =>
      match float_default_value a with
      | Some d => float_in_bounds (float_min_value a) (float_max_value a) d
      | None => true
      end
  | Int a =>
      match config.int_default_value a with
      | Some d => config.in_bounds (config.int_min_value a) (config.int_max_value a) d
      | None => true
      end
  | String a =>
      match config.str_default_value a, config.allowlist a with
      | Some d, Some l => bool_decide (d ∈ l)
      | _, _ => true
      end
  | Bool _ => true
  | Dict _ => true
  end.

End config_table.

(** ** tracker_service.py: the configured service *)

Module service.

(** What a service method can raise: a [ValueError] of its own, with its
    message, or the exception a collaborator raised (the camera, the
    validation of the attributes), passed on as it is. *)
Inductive raised : Type :=
| ValueError (message : string)
| Propagated (what : string).

(** The outcome of a call. *)
Inductive outcome (A : Type) : Type :=
| Done (a : A)
| Failed (e : raised).

Arguments Done {A} a.
Arguments Failed {A} e.

(** The attributes of a [TrackerService] that the reader methods use, once
    [reconfigure] has run: the configured camera name, the outcome of
    [camera.get_image] and the list [tracker.get_current_detections]
    returns at the time of the call. *)
Record TrackerService : Type := mkTrackerService {
  camera_name : string;
  camera_get_image : outcome tracker_service.ViamImage;
  tracker_get_current_detections : list track.Detection
}.

(** [CaptureAllResult], with the two fields the method passes. *)
Record CaptureAllResult : Type := mkCaptureAllResult {
  image : option tracker_service.ViamImage;
  detections : option (list track.Detection)
}.

(** [TrackerService.capture_all_from_camera] *)
Definition capture_all_from_camera (self : TrackerService) (camera_name0 : string)
    (return_image return_classifications return_detections
       return_object_point_clouds : bool) : outcome CaptureAllResult :=
  if negb (bool_decide (camera_name0 = camera_name self)) then
    Failed (ValueError
      (String.append "The camera_name "
         (String.append camera_name0
            (String.append
               " doesn't match the camera_name configured for the tracker: "
               (String.append (camera_name self) ".")))))
  else
    let img :=
      if return_image then
        match camera_get_image self with
        | Done i => Done (Some i)
        | Failed e => Failed e
        end
      else Done None in
    match img with
    | Failed e => Failed e
    | Done img =>
        let detections0 :=
          if return_detections then Some (tracker_get_current_detections self)
          else None in
        Done (mkCaptureAllResult img detections0)
    end.

(** [TrackerService.get_detections_from_camera] *)
Definition get_detections_from_camera (self : TrackerService) (camera_name0 : string)
    : outcome (list track.Detection) :=
  if negb (bool_decide (camera_name0 = camera_name self))
     && negb (bool_decide (camera_name0 = ""%string))
  then Failed (ValueError
         "The camera_name doesn't match the camera_name configured for the tracker.")
  else Done (tracker_get_current_detections self).

(** [config.attributes.fields]: a protobuf map from keys to [Value]s;
    [None] stands for a [Value] none of whose kinds is set. *)
Definition unset : option config.Value := None.

(** [fields[k]]: the value under [k]; a key that is missing is created
    with an unset [Value]. *)
Definition getitem (fields : gmap string (option config.Value)) (k : string)
    : option config.Value * gmap string (option config.Value) :=
  match fields !! k with
  | Some v => (v, fields)
  | None => (unset, <[k := unset]> fields)
  end.

(** [v.string_value]: the string, and the empty string for a [Value] of
    another kind. *)
Definition string_value_of (v : option config.Value) : string :=
  match v with
  | Some (config.string_value s) => s
  | _ => ""%string
  end.

(** Truth value of a string: false for the empty one. *)
Definition nonempty (s : string) : bool := negb (bool_decide (s = ""%string)).

Section ValidateConfig.

(** [TrackerConfig(config)], the validation of the attributes by the
    missing [attribute.py]: what it raises on the given fields, if
    anything. *)
Variable TrackerConfig : gmap string (option config.Value) -> option raised.

(** [TrackerService.validate_config] *)
Definition validate_config (fields : gmap string (option config.Value))
    : outcome (list string) :=
  let dependencies := [] in
  let '(v, fields) := getitem fields "camera_name" in
  let camera_name0 := string_value_of v in
  let dependencies := dependencies ++ [camera_name0] in
  let '(v, fields) := getitem fields "detector_name" in
  let detector_name := string_value_of v in
  let dependencies :=
    if nonempty detector_name then dependencies ++ [detector_name]
    else dependencies in
  let '(v, fields) := getitem fields "embedder_name" in
  let embedder_name := string_value_of v in
  let dependencies :=
    if nonempty embedder_name then dependencies ++ [embedder_name]
    else dependencies in
  match TrackerConfig fields with
  | Some e => Failed e
  | None => Done dependencies
  end.

End ValidateConfig.

(** The string a configuration holds under a key, as the service reads
    it. *)
Definition configured (fields : gmap string (option config.Value)) (k : string)
    : string :=
  string_value_of (default unset (fields !! k)).

(** The fields as [validate_config] hands them to [TrackerConfig]: the
    three keys it read are present. *)
Definition after_reads (fields : gmap string (option config.Value))
    : gmap string (option config.Value) :=
  (getitem ((getitem ((getitem fields "camera_name").2) "detector_name").2)
     "embedder_name").2.

End service.

(** * Properties *)

Import Py track.

(** ** The state of a track *)

Section TrackState.

Variables (tid : string) (b0 : Box) (f0 : list float64) (d0 : Q)
          (l0 : option string) (c0 : bool).

(** A new track predicts its own box: the velocity is zero. *)
Lemma init_prediction_fresh : prediction_fresh (__init__ tid b0 f0 d0 l0 c0).
Proof.
  unfold prediction_fresh, box_add; destruct b0 as [a b c d]; simpl.
  f_equal; lia.
Qed.

Lemma init_counters :
  age (__init__ tid b0 f0 d0 l0 c0) = 0
  /\ persistence (__init__ tid b0 f0 d0 l0 c0) = 0.
Proof. split; reflexivity. Qed.

End TrackState.

(** [update] recomputes the prediction from the new box and velocity. *)
Lemma update_prediction_fresh (t : Track) (b : Box) (f : list float64) (d : Q) :
  prediction_fresh (update t b f d).
Proof. reflexivity. Qed.

(** After a miss the stored prediction is the new [bbox] itself. *)
Lemma increment_age_prediction (t : Track) :
  prediction_fresh t -> predicted_bbox (increment_age t) = bbox (increment_age t).
Proof. intros H; unfold increment_age, predict; simpl; exact H. Qed.

Lemma box_add_cancel (a v : Box) : a = box_add a v -> v = zeros4.
Proof.
  destruct a as [a1 a2 a3 a4], v as [v1 v2 v3 v4]; unfold box_add, zeros4; simpl.
  intros H; injection H as H1 H2 H3 H4; f_equal; lia.
Qed.

(** A miss keeps the prediction fresh only for a track at rest. *)
Lemma increment_age_fresh_iff (t : Track) :
  prediction_fresh t ->
  prediction_fresh (increment_age t) <-> velocity t = zeros4.
Proof.
  intros H; unfold prediction_fresh at 1.
  rewrite (increment_age_prediction t H).
  change (velocity (increment_age t)) with (velocity t).
  split.
  - apply box_add_cancel.
  - intros ->; destruct (bbox (increment_age t)) as [a1 a2 a3 a4].
    unfold box_add, zeros4; simpl; f_equal; lia.
Qed.

(** The effect of each step on the two counters. *)
Lemma step_age (t : Track) (o : operation) :
  0 <= age t -> 0 <= age (step t o).
Proof. destruct o; simpl; lia. Qed.

Lemma step_persistence (t : Track) (o : operation) :
  persistence t <= persistence (step t o).
Proof. destruct o; simpl; lia. Qed.

Lemma step_min_persistence (t : Track) (o : operation) :
  min_persistence (step t o) = min_persistence t.
Proof. destruct o; reflexivity. Qed.

Lemma run_snoc (t : Track) (os : list operation) (o : operation) :
  run t (os ++ [o]) = step (run t os) o.
Proof. unfold run; rewrite fold_left_app; reflexivity. Qed.

Lemma run_counters (t : Track) (os : list operation) :
  0 <= age t -> 0 <= persistence t ->
  0 <= age (run t os) /\ persistence t <= persistence (run t os).
Proof.
  intros Ha Hp; induction os as [| o os IH] using rev_ind.
  - simpl; lia.
  - rewrite run_snoc; destruct IH as [IHa IHp]; split.
    + apply step_age, IHa.
    + pose proof (step_persistence (run t os) o); lia.
Qed.

Lemma run_min_persistence (t : Track) (os : list operation) :
  min_persistence (run t os) = min_persistence t.
Proof.
  induction os as [| o os IH] using rev_ind; [reflexivity |].
  rewrite run_snoc, step_min_persistence; exact IH.
Qed.

(** C1, at a moving track: a track observed at [0,0,10,10] and then
    at [1,1,11,11] has velocity [1,1,1,1] and prediction [2,2,12,12];
    after one [increment_age] its box is [2,2,12,12] and so is
    [predicted_bbox], whereas [bbox + velocity] is [3,3,13,13]: the
    stored prediction is no longer [bbox + velocity]. *)
Theorem increment_age_stale_prediction :
  let t := update (__init__ "1" (array 0 0 10 10) [] 0%Q None true)
             (array 1 1 11 11) [] 0%Q in
  prediction_fresh t
  /\ bbox (increment_age t) = array 2 2 12 12
  /\ predicted_bbox (increment_age t) = array 2 2 12 12
  /\ box_add (bbox (increment_age t)) (velocity (increment_age t)) = array 3 3 13 13
  /\ ~ prediction_fresh (increment_age t).
Proof.
  cbv zeta; repeat split; try reflexivity.
  unfold prediction_fresh; vm_compute; discriminate.
Qed.

(** [iou] reads nothing of the track but its [predicted_bbox]. *)
Lemma iou_reads_prediction (t u : Track) (o : Box) :
  predicted_bbox t = predicted_bbox u -> iou t o = iou u o.
Proof. intros H; unfold iou; rewrite H; reflexivity. Qed.

(** C1, as the code has it: [predicted_bbox] is [bbox + velocity]
    after creation and after every [update]; [increment_age] moves [bbox]
    to [bbox + velocity] and leaves [predicted_bbox] as it was, so that
    after a miss that follows a creation or an update [predicted_bbox] is
    the moved [bbox] itself, and is [bbox + velocity] again only for a
    track at rest; and [iou] compares a detection with [predicted_bbox],
    whatever [bbox] is. *)
Theorem prediction_after_operations :
  forall (t : Track),
    (forall tid b0 f0 d0 l0 c0, prediction_fresh (__init__ tid b0 f0 d0 l0 c0))
    /\ (forall b f d, prediction_fresh (update t b f d))
    /\ predicted_bbox (increment_age t) = predicted_bbox t
    /\ bbox (increment_age t) = box_add (bbox t) (velocity t)
    /\ (prediction_fresh t ->
        predicted_bbox (increment_age t) = bbox (increment_age t)
        /\ (prediction_fresh (increment_age t) <-> velocity t = zeros4))
    /\ (forall (u : Track) (o : Box),
          predicted_bbox u = predicted_bbox t -> iou u o = iou t o).
Proof.
  intros t; split; [| split; [| split; [| split; [| split]]]].
  - intros; apply init_prediction_fresh.
  - intros; apply update_prediction_fresh.
  - reflexivity.
  - reflexivity.
  - intros H; split;
      [apply increment_age_prediction, H | apply increment_age_fresh_iff, H].
  - intros u o H; apply iou_reads_prediction, H.
Qed.

(** The scenario of one miss: a track at [0,0,10,10] with velocity
    [1,1,1,1] predicts [1,1,11,11]; after the miss its box is
    [1,1,11,11] and the prediction is still [1,1,11,11]. *)
Lemma prediction_after_operations_witness :
  let t := update (__init__ "1" (array (-1) (-1) 9 9) [] 0%Q None true)
             (array 0 0 10 10) [] 0%Q in
  prediction_fresh t
  /\ bbox t = array 0 0 10 10 /\ velocity t = array 1 1 1 1
  /\ predicted_bbox (increment_age t) = array 1 1 11 11
  /\ bbox (increment_age t) = array 1 1 11 11
  /\ age (increment_age t) = 1.
Proof.
  cbv zeta.
  assert (H : prediction_fresh
                (update (__init__ "1" (array (-1) (-1) 9 9) [] 0%Q None true)
                   (array 0 0 10 10) [] 0%Q)) by reflexivity.
  split; [exact H |]; split; [reflexivity |]; split; [reflexivity |].
  destruct (proj1 (proj2 (proj2 (proj2 (proj2
              (prediction_after_operations
                 (update (__init__ "1" (array (-1) (-1) 9 9) [] 0%Q None true)
                    (array 0 0 10 10) [] 0%Q)))))) H) as [Hp _].
  split; [reflexivity |]; split; [| reflexivity].
  rewrite <- Hp; reflexivity.
Defined.

(** C2: after [update t b f d] the velocity is [b - bbox t], the box
    is [b], the feature vector is [f] (whatever it was before), the
    distance is [d], [b] has been appended to the history and the age is 0;
    and a new track has zero velocity. *)
Theorem update_assigns :
  forall (t : Track) (b : Box) (f : list float64) (d : Q),
    (velocity (update t b f d) = box_sub b (bbox t)
     /\ bbox (update t b f d) = b
     /\ feature_vector (update t b f d) = f
     /\ distance (update t b f d) = d
     /\ history (update t b f d) = history t ++ [b]
     /\ age (update t b f d) = 0)
    /\ forall tid b0 f0 d0 l0 c0,
         velocity (__init__ tid b0 f0 d0 l0 c0) = array 0 0 0 0.
Proof. intros; repeat split. Qed.

(** C5: along every history of a track, from its construction on,
    [age] and [persistence] are non-negative; no operation decreases
    [persistence]; and [increment_age] leaves it unchanged. *)
Theorem counters_nonnegative_persistence_monotone :
  (forall tid b0 f0 d0 l0 c0 (os : list operation),
     0 <= age (run (__init__ tid b0 f0 d0 l0 c0) os)
     /\ 0 <= persistence (run (__init__ tid b0 f0 d0 l0 c0) os))
  /\ (forall (t : Track) (o : operation), persistence t <= persistence (step t o))
  /\ (forall (t : Track) b f d, persistence (update t b f d) = persistence t)
  /\ (forall (t : Track), persistence (increment_persistence t) = persistence t + 1)
  /\ (forall (t : Track), persistence (increment_age t) = persistence t
                          /\ age (increment_age t) = age t + 1).
Proof.
  split; [| repeat split; try reflexivity; apply step_persistence].
  intros.
  destruct (run_counters (__init__ tid b0 f0 d0 l0 c0) os) as [Ha Hp];
    simpl; try lia.
  simpl in Hp; lia.
Qed.

(** ** Intersection over union *)

(** *** The exact areas *)

Lemma inter_area_nonneg (a b : Box) : 0 <= inter_area a b.
Proof. unfold inter_area; apply Z.mul_nonneg_nonneg; lia. Qed.

Lemma inter_area_comm (a b : Box) : inter_area a b = inter_area b a.
Proof.
  unfold inter_area.
  rewrite (Z.min_comm (x2 a)), (Z.max_comm (x1 a)),
    (Z.min_comm (y2 a)), (Z.max_comm (y1 a)); reflexivity.
Qed.

(** A non-empty intersection has positive width and height. *)
Lemma inter_area_pos_sides (a b : Box) :
  0 < inter_area a b ->
  0 < Z.min (x2 a) (x2 b) - Z.max (x1 a) (x1 b)
  /\ 0 < Z.min (y2 a) (y2 b) - Z.max (y1 a) (y1 b).
Proof.
  unfold inter_area; intros H.
  destruct (Z_lt_le_dec 0 (Z.min (x2 a) (x2 b) - Z.max (x1 a) (x1 b))) as [Hw | Hw];
    destruct (Z_lt_le_dec 0 (Z.min (y2 a) (y2 b) - Z.max (y1 a) (y1 b))) as [Hh | Hh];
    try (split; assumption).
  - rewrite (Z.max_l 0 (Z.min (y2 a) (y2 b) - _)) in H by lia; lia.
  - rewrite (Z.max_l 0 (Z.min (x2 a) (x2 b) - _)) in H by lia; lia.
  - rewrite (Z.max_l 0 (Z.min (x2 a) (x2 b) - _)) in H by lia; lia.
Qed.

Lemma inter_area_le_left (a b : Box) :
  0 < inter_area a b -> inter_area a b <= area a.
Proof.
  intros H; destruct (inter_area_pos_sides a b H) as [Hw Hh].
  unfold inter_area, area; rewrite !Z.max_r by lia.
  apply Z.mul_le_mono_nonneg; lia.
Qed.

Lemma inter_area_self (b : Box) :
  valid_box b -> inter_area b b = area b.
Proof.
  intros [Hx Hy]; unfold inter_area, area.
  rewrite !Z.min_id, !Z.max_id, !Z.max_r by lia; reflexivity.
Qed.

Lemma inter_area_disjoint (a b : Box) : disjoint a b -> inter_area a b = 0.
Proof.
  unfold disjoint, inter_area; intros H.
  destruct H as [H | [H | [H | H]]].
  1, 2: rewrite (Z.max_l 0 (Z.min (x2 a) (x2 b) - Z.max (x1 a) (x1 b))) by lia;
        reflexivity.
  all: rewrite (Z.max_l 0 (Z.min (y2 a) (y2 b) - Z.max (y1 a) (y1 b))) by lia;
       lia.
Qed.

(** A product of two integers that is not positive has a factor that is
    not positive. *)
Lemma nonpositive_factor (w h : Z) : w * h <= 0 -> w <= 0 \/ h <= 0.
Proof. intros H; destruct (Z_le_gt_dec w 0); [left; lia | right; nia]. Qed.

Lemma inter_area_degenerate (a b : Box) :
  area a <= 0 \/ area b <= 0 -> inter_area a b = 0.
Proof.
  unfold area, inter_area; intros [H | H];
    apply nonpositive_factor in H; destruct H as [H | H].
  1, 3: rewrite (Z.max_l 0 (Z.min (x2 a) (x2 b) - Z.max (x1 a) (x1 b))) by lia;
        reflexivity.
  all: rewrite (Z.max_l 0 (Z.min (y2 a) (y2 b) - Z.max (y1 a) (y1 b))) by lia;
       lia.
Qed.

(** *** The 64-bit computation *)

Lemma wrap64_id (z : Z) : - 2 ^ 63 <= z < 2 ^ 63 -> wrap64 z = z.
Proof.
  intros H; unfold wrap64.
  rewrite Z.mod_small by lia; lia.
Qed.

Lemma product_bound (w h : Z) :
  - 2 ^ 31 < w < 2 ^ 31 -> - 2 ^ 31 < h < 2 ^ 31 ->
  - 2 ^ 62 < w * h < 2 ^ 62.
Proof.
  intros Hw Hh.
  change (2 ^ 62) with (2 ^ 31 * 2 ^ 31).
  generalize dependent (2 ^ 31); intros B Hw Hh; nia.
Qed.

(** Whatever the boxes, the division is reached only with a positive
    divisor. *)
Lemma iou_returns (t : Track) (o : Box) : exists q, iou t o = Return q.
Proof.
  unfold iou.
  destruct (predicted_bbox t) as [a1 a2 a3 a4], o as [o1 o2 o3 o4].
  cbv beta iota zeta.
  destruct (decide _) as [Hpos | Hneg]; [| eauto].
  unfold truediv; destruct (decide _) as [Hz | Hnz]; [lia | eauto].
Qed.

(** For boxes in the pixel range nothing wraps: [iou] is the quotient of
    the exact areas. *)
Lemma iou_unfold (t : Track) (o : Box) :
  pixel_range (predicted_bbox t) -> pixel_range o ->
  iou t o =
  if decide (union_area (predicted_bbox t) o > 0)
  then Return (inject_Z (inter_area (predicted_bbox t) o)
               / inject_Z (union_area (predicted_bbox t) o))%Q
  else Return 0%Q.
Proof.
  intros Rt Ro.
  pose proof (inter_area_nonneg (predicted_bbox t) o) as Hn.
  assert (Hi : inter_area (predicted_bbox t) o = 0
               \/ 0 < inter_area (predicted_bbox t) o
                  /\ inter_area (predicted_bbox t) o <= area (predicted_bbox t))
    by (destruct (Z.eq_dec (inter_area (predicted_bbox t) o) 0);
        [left; assumption | right; split; [lia | apply inter_area_le_left; lia]]).
  revert Hn Hi; unfold iou, union_area, inter_area, area, pixel_range in *.
  destruct (predicted_bbox t) as [a1 a2 a3 a4], o as [o1 o2 o3 o4].
  cbv beta iota zeta; simpl x1 in *; simpl y1 in *; simpl x2 in *; simpl y2 in *.
  unfold int64_sub, int64_add, int64_mul.
  rewrite (wrap64_id (Z.min a3 o3 - Z.max a1 o1)) by lia.
  rewrite (wrap64_id (Z.min a4 o4 - Z.max a2 o2)) by lia.
  rewrite (wrap64_id (a3 - a1)), (wrap64_id (a4 - a2)) by lia.
  rewrite (wrap64_id (o3 - o1)), (wrap64_id (o4 - o2)) by lia.
  set (wi := Z.max 0 (Z.min a3 o3 - Z.max a1 o1)).
  set (hi := Z.max 0 (Z.min a4 o4 - Z.max a2 o2)).
  pose proof (product_bound wi hi ltac:(subst wi; lia) ltac:(subst hi; lia)) as Bi.
  pose proof (product_bound (a3 - a1) (a4 - a2) ltac:(lia) ltac:(lia)) as Bt.
  pose proof (product_bound (o3 - o1) (o4 - o2) ltac:(lia) ltac:(lia)) as Bo.
  rewrite (wrap64_id (wi * hi)) by lia.
  rewrite (wrap64_id ((a3 - a1) * (a4 - a2))) by lia.
  rewrite (wrap64_id ((o3 - o1) * (o4 - o2))) by lia.
  intros Hn Hi.
  rewrite (wrap64_id ((a3 - a1) * (a4 - a2) + (o3 - o1) * (o4 - o2))) by lia.
  rewrite (wrap64_id ((a3 - a1) * (a4 - a2) + (o3 - o1) * (o4 - o2) - wi * hi))
    by lia.
  destruct (decide _) as [Hpos | Hneg]; [| reflexivity].
  unfold truediv; destruct (decide _) as [Hz | Hnz]; [lia | reflexivity].
Qed.

Lemma iou_zero_of_inter (t : Track) (o : Box) :
  pixel_range (predicted_bbox t) -> pixel_range o ->
  inter_area (predicted_bbox t) o = 0 -> exists q, iou t o = Return q /\ (q == 0)%Q.
Proof.
  intros Rt Ro H; rewrite (iou_unfold t o Rt Ro), H.
  destruct (decide _); eexists; (split; [reflexivity |]).
  - unfold Qdiv; rewrite Qmult_0_l; reflexivity.
  - reflexivity.
Qed.

(** C3, at a box whose area does not fit 64 bits: the ordered box
    [0,0,4000000000,4000000000] has positive area, but its area wraps to
    a negative number, the union is not positive, and [iou] of the box
    with itself is 0, not 1. *)
Lemma iou_wraps_on_large_box :
  let b := array 0 0 4000000000 4000000000 in
  let t := __init__ "1" b [] 0%Q None false in
  valid_box b /\ 0 < area b /\ predicted_bbox t = b
  /\ int64_mul 4000000000 4000000000 = - 2446744073709551616
  /\ iou t b = Return 0%Q
  /\ ~ (0 == 1)%Q.
Proof.
  cbv zeta; split; [split; simpl; lia |].
  split; [vm_compute; reflexivity |].
  split; [reflexivity |].
  split; [vm_compute; reflexivity |].
  split; [vm_compute; reflexivity | discriminate].
Qed.

(** C3, as the code has it: among boxes whose coordinates have
    magnitude below [2^30], so that no 64-bit area wraps, [iou] returns a
    value; a valid box of positive area has [iou] 1 with itself (the
    track's side being its [predicted_bbox]), disjoint boxes have [iou] 0,
    and a box of non-positive area on either side gives 0; and whatever
    the boxes, the division is reached only with a positive divisor: there
    is no division by zero. *)
Theorem iou_identity_disjoint_degenerate :
  forall (t : Track) (o : Box),
    (pixel_range (predicted_bbox t) -> pixel_range o ->
     (exists q, iou t o = Return q)
     /\ (valid_box o -> 0 < area o -> predicted_bbox t = o ->
         exists q, iou t o = Return q /\ (q == 1)%Q)
     /\ (disjoint (predicted_bbox t) o ->
         exists q, iou t o = Return q /\ (q == 0)%Q)
     /\ (area (predicted_bbox t) <= 0 \/ area o <= 0 ->
         exists q, iou t o = Return q /\ (q == 0)%Q))
    /\ iou t o <> Raise ZeroDivisionError.
Proof.
  intros t o; split.
  - intros Rt Ro; split; [apply iou_returns |]; split; [| split].
    + intros Hv Ha Hp; rewrite (iou_unfold t o Rt Ro), Hp.
      unfold union_area; rewrite (inter_area_self o Hv).
      replace (area o + area o - area o) with (area o) by lia.
      destruct (decide _) as [_ | Hn]; [| lia].
      eexists; split; [reflexivity |].
      apply Qmult_inv_r.
      intros Hz; unfold Qeq in Hz; simpl in Hz; lia.
    + intros Hd; apply iou_zero_of_inter, inter_area_disjoint, Hd; assumption.
    + intros Hd; apply iou_zero_of_inter, inter_area_degenerate, Hd; assumption.
  - intros He; destruct (iou_returns t o) as [q Hq]; congruence.
Qed.

Lemma pixel_range_small (a b c d : Z) :
  - 1000 <= a <= 1000 -> - 1000 <= b <= 1000 ->
  - 1000 <= c <= 1000 -> - 1000 <= d <= 1000 ->
  pixel_range (array a b c d).
Proof. unfold pixel_range; simpl; intros; lia. Qed.

Lemma iou_identity_disjoint_degenerate_witness :
  let t := __init__ "1" (array 0 0 10 10) [] 0%Q None false in
  (valid_box (array 0 0 10 10) /\ 0 < area (array 0 0 10 10)
   /\ exists q, iou t (array 0 0 10 10) = Return q /\ (q == 1)%Q)
  /\ (disjoint (predicted_bbox t) (array 20 20 30 30)
      /\ exists q, iou t (array 20 20 30 30) = Return q /\ (q == 0)%Q)
  /\ (area (array 5 5 5 9) <= 0
      /\ exists q, iou t (array 5 5 5 9) = Return q /\ (q == 0)%Q).
Proof.
  cbv zeta.
  assert (Hv : valid_box (array 0 0 10 10)) by (split; simpl; lia).
  assert (Ha : 0 < area (array 0 0 10 10)) by (vm_compute; reflexivity).
  assert (Hd : disjoint (array 0 0 10 10) (array 20 20 30 30))
    by (left; simpl; lia).
  assert (Hz : area (array 5 5 5 9) <= 0) by (vm_compute; discriminate).
  assert (R0 : pixel_range (array 0 0 10 10)) by (apply pixel_range_small; lia).
  assert (R1 : pixel_range (array 20 20 30 30)) by (apply pixel_range_small; lia).
  assert (R2 : pixel_range (array 5 5 5 9)) by (apply pixel_range_small; lia).
  split; [| split].
  - split; [exact Hv | split; [exact Ha |]].
    exact (proj1 (proj2 (proj1 (iou_identity_disjoint_degenerate
                    (__init__ "1" (array 0 0 10 10) [] 0%Q None false)
                    (array 0 0 10 10)) R0 R0)) Hv Ha eq_refl).
  - split; [exact Hd |].
    exact (proj1 (proj2 (proj2 (proj1 (iou_identity_disjoint_degenerate
                    (__init__ "1" (array 0 0 10 10) [] 0%Q None false)
                    (array 20 20 30 30)) R0 R1))) Hd).
  - split; [exact Hz |].
    exact (proj2 (proj2 (proj2 (proj1 (iou_identity_disjoint_degenerate
                    (__init__ "1" (array 0 0 10 10) [] 0%Q None false)
                    (array 5 5 5 9)) R0 R2))) (or_intror Hz)).
Defined.

(** ** The confirmation threshold *)

(** C4, against the default configuration: the declared default of
    [min_track_persistence] is 4, which is the configured value when the
    attributes do not set it, and a track built by [Track.__init__] has
    [min_persistence] 3. *)
Lemma min_persistence_differs_from_configured :
  let cfg := config.mkServiceConfig "tracker" ∅ in
  let t := __init__ "1" (array 0 0 10 10) [] 0%Q None true in
  exists configured : Z,
    config.int_default_value config.min_track_persistence_attribute = Some configured
    /\ config.TrackingConfig_min_track_persistence cfg = Return (Some configured)
    /\ configured = 4
    /\ min_persistence t = 3
    /\ min_persistence t <> configured.
Proof.
  cbv zeta; exists 4.
  split; [reflexivity |].
  split; [vm_compute; reflexivity |].
  split; [reflexivity |].
  split; [reflexivity |].
  simpl; lia.
Qed.

(** C4, as the code has it: every track is built with
    [min_persistence] 3, whatever the arguments of the constructor, and
    keeps that value along every history; the constructor has no argument
    for it. *)
Theorem min_persistence_constant :
  forall tid b0 f0 d0 l0 c0 (os : list operation),
    min_persistence (__init__ tid b0 f0 d0 l0 c0) = 3
    /\ min_persistence (run (__init__ tid b0 f0 d0 l0 c0) os) = 3.
Proof.
  intros; split; [reflexivity |].
  rewrite run_min_persistence; reflexivity.
Qed.

(** ** The reader-facing detection *)

Lemma progress_bar_indicator (t : Track) :
  progress_bar t (persistence t) (min_persistence t)
  = progress_indicator (persistence t) (min_persistence t).
Proof.
  unfold progress_bar, progress_indicator.
  destruct (decide _) as [Hgt | Hle].
  - rewrite Z.min_r by lia; reflexivity.
  - rewrite Z.min_l by lia; reflexivity.
Qed.

Lemma get_class_name_cases (t : Track) :
  _get_class_name t
  = if is_candidate t
    then progress_indicator (persistence t) (min_persistence t)
    else track_id t.
Proof.
  unfold _get_class_name; destruct (is_candidate t);
    [apply progress_bar_indicator | reflexivity].
Qed.

(** With a crop region in force and both image dimensions given, the
    method returns the box shifted by the truncated offsets and clamped to
    the last pixel of the image. *)
Lemma get_detection_cropped (t : Track) (crop : gmap string Q) (w h : Z) :
  size crop <> 0%nat ->
  get_detection t (Some crop) (Some w) (Some h)
  = Return
      {| x_min := Z.min (w - 1) (x1 (bbox t) + crop_offset crop "x1_rel" w);
         y_min := Z.min (h - 1) (y1 (bbox t) + crop_offset crop "y1_rel" h);
         x_max := Z.min (w - 1) (x2 (bbox t) + crop_offset crop "x1_rel" w);
         y_max := Z.min (h - 1) (y2 (bbox t) + crop_offset crop "y1_rel" h);
         confidence := (1 - distance t)%Q;
         class_name := _get_class_name t |}.
Proof.
  intros Hs; unfold get_detection, truthy.
  destruct (bbox t) as [a1 a2 a3 a4]; simpl.
  destruct (Nat.eqb_spec (size crop) 0) as [He | _]; [contradiction |].
  reflexivity.
Qed.

(** Without a crop region the box is reported as it is. *)
Lemma get_detection_uncropped (t : Track) (crop : option (gmap string Q))
    (ow oh : option Z) :
  truthy crop = false ->
  get_detection t crop ow oh
  = Return
      {| x_min := x1 (bbox t); y_min := y1 (bbox t);
         x_max := x2 (bbox t); y_max := y2 (bbox t);
         confidence := (1 - distance t)%Q;
         class_name := _get_class_name t |}.
Proof.
  intros Hf; unfold get_detection; rewrite Hf.
  destruct (bbox t); reflexivity.
Qed.

(** C6: whenever the call is well-formed (image dimensions given if
    a crop region is in force), [get_detection] returns a detection whose
    confidence is [1 - distance], and whose class name is the progress
    indicator while the track is a candidate and the track id otherwise. *)
Theorem get_detection_confidence_class_name :
  forall (t : Track) (crop : option (gmap string Q)) (ow oh : option Z),
    (truthy crop = true -> is_Some ow /\ is_Some oh) ->
    exists d, get_detection t crop ow oh = Return d
      /\ confidence d = (1 - distance t)%Q
      /\ class_name d
         = if is_candidate t
           then progress_indicator (persistence t) (min_persistence t)
           else track_id t.
Proof.
  intros t crop ow oh Hdims.
  destruct (truthy crop) eqn:Htr.
  - destruct (Hdims eq_refl) as [[w ->] [h ->]].
    destruct crop as [m |]; [| discriminate].
    assert (Hs : size m <> 0%nat).
    { unfold truthy in Htr.
      destruct (Nat.eqb_spec (size m) 0); [discriminate | assumption]. }
    rewrite (get_detection_cropped t m w h Hs).
    eexists; split; [reflexivity |]; simpl.
    split; [reflexivity | apply get_class_name_cases].
  - rewrite (get_detection_uncropped t crop ow oh Htr).
    eexists; split; [reflexivity |]; simpl.
    split; [reflexivity | apply get_class_name_cases].
Qed.

Lemma get_detection_confidence_class_name_witness :
  let candidate := increment_persistence
                     (__init__ "7" (array 10 10 20 20) [] (1 # 10)%Q None true) in
  let confirmed := __init__ "7" (array 10 10 20 20) [] (1 # 10)%Q None false in
  (truthy (Some central_crop) = true -> is_Some (Some 400) /\ is_Some (Some 400))
  /\ (exists d,
        get_detection candidate (Some central_crop) (Some 400) (Some 400) = Return d
        /\ confidence d = (1 - (1 # 10))%Q
        /\ class_name d = "tracking  [ * . .]"%string)
  /\ (exists d,
        get_detection confirmed (Some central_crop) (Some 400) (Some 400) = Return d
        /\ confidence d = (1 - (1 # 10))%Q
        /\ class_name d = "7"%string).
Proof.
  cbv zeta.
  assert (H : truthy (Some central_crop) = true
              -> is_Some (Some 400) /\ is_Some (Some 400))
    by (intros _; split; eexists; reflexivity).
  split; [exact H |]; split.
  - exact (get_detection_confidence_class_name
             (increment_persistence
                (__init__ "7" (array 10 10 20 20) [] (1 # 10)%Q None true))
             (Some central_crop) (Some 400) (Some 400) H).
  - exact (get_detection_confidence_class_name
             (__init__ "7" (array 10 10 20 20) [] (1 # 10)%Q None false)
             (Some central_crop) (Some 400) (Some 400) H).
Defined.




(** The rounding of the product decides the offset: with [x1_rel] 0.29
    and a width of 100 the float product is just below 29 and the offset
    is 28; with 0.3 and 640 the float product is 192 although the float
    0.3 is below three tenths. *)
Lemma float_offsets_rounded :
  int (float_mul_int (29 # 100) 100) = 28
  /\ int (float_mul_int (3 # 10) 640) = 192
  /\ int (float_mul_int (1 # 4) 400) = 100.
Proof. repeat split; vm_compute; reflexivity. Qed.

(** ** Configuration of the distance metric *)

Lemma validate_with_string (a : config.StringAttribute) (cfg : config.ServiceConfig)
    (s : string) :
  config.StringAttribute_validate a (config.with_string cfg (config.str_field_name a) s)
  = match config.allowlist a with
    | None => Return (Some s)
    | Some l => if bool_decide (s ∈ l) then Return (Some s)
                else Raise ConfigurationError
    end.
Proof.
  unfold config.StringAttribute_validate, config.with_string; simpl.
  rewrite lookup_insert_eq; reflexivity.
Qed.

(** C8, at the value manhattan: a configuration whose only attribute
    is [feature_distance_metric = "manhattan"] is refused with a
    configuration error. *)
Lemma feature_distance_metric_manhattan_rejected :
  let cfg := config.with_string (config.mkServiceConfig "tracker" ∅)
               "feature_distance_metric" "manhattan" in
  config.TrackingConfig_feature_distance_metric cfg = Raise ConfigurationError
  /\ ~ returns (config.TrackingConfig_feature_distance_metric cfg).
Proof.
  cbv zeta; split; [vm_compute; reflexivity |].
  intros [v Hv]; vm_compute in Hv; discriminate.
Qed.

(** C8, as the code has it: whatever the rest of the configuration,
    [feature_distance_metric] set to cosine or to euclidean is accepted
    and is the validated value, it is cosine when absent, and any other
    string, manhattan among them, is a configuration error; manhattan is
    accepted for [embedder_distance] only. *)
Theorem feature_distance_metric_allowlist :
  forall (cfg : config.ServiceConfig),
    let set := config.with_string cfg "feature_distance_metric" in
    config.TrackingConfig_feature_distance_metric (set "cosine")
      = Return (Some "cosine"%string)
    /\ config.TrackingConfig_feature_distance_metric (set "euclidean")
      = Return (Some "euclidean"%string)
    /\ config.TrackingConfig_feature_distance_metric (set "manhattan")
      = Raise ConfigurationError
    /\ (forall s : string,
          returns (config.TrackingConfig_feature_distance_metric (set s))
          <-> s = "cosine"%string \/ s = "euclidean"%string)
    /\ config.TrackingConfig_feature_distance_metric
         (config.mkServiceConfig "tracker" ∅) = Return (Some "cosine"%string)
    /\ config.EmbedderConfig_embedder_distance
         (config.with_string cfg "embedder_distance" "manhattan")
       = Return (Some "manhattan"%string).
Proof.
  intros cfg set; subst set.
  unfold config.TrackingConfig_feature_distance_metric,
    config.EmbedderConfig_embedder_distance.
  pose proof (validate_with_string config.feature_distance_metric_attribute cfg) as Hf.
  pose proof (validate_with_string config.embedder_distance_attribute cfg) as He.
  simpl in Hf, He.
  repeat apply conj.
  - rewrite Hf; reflexivity.
  - rewrite Hf; reflexivity.
  - rewrite Hf; reflexivity.
  - intros s; rewrite Hf; split.
    + intros [v Hv]; case_bool_decide as Hin; [| discriminate].
      rewrite !elem_of_cons, elem_of_nil in Hin; tauto.
    + intros Hs; rewrite bool_decide_eq_true_2.
      * eexists; reflexivity.
      * rewrite !elem_of_cons, elem_of_nil; tauto.
  - reflexivity.
  - rewrite He; reflexivity.
Qed.

(** ** Unsupported reader requests *)

(** C9, at the three requests that do not raise:
    [get_object_point_clouds] raises [NotImplementedError], while
    [get_detections], [get_classifications] and
    [get_classifications_from_camera] return normally, handing the
    exception class back as their value. *)
Theorem unsupported_requests_return_exception_class :
  forall (camera_name : string) (image : tracker_service.ViamImage) (count : Z),
    raises (tracker_service.get_object_point_clouds camera_name) NotImplementedError
    /\ tracker_service.get_detections image
       = Return (tracker_service.exception_class NotImplementedError)
    /\ tracker_service.get_classifications image count
       = Return (tracker_service.exception_class NotImplementedError)
    /\ tracker_service.get_classifications_from_camera camera_name count
       = Return (tracker_service.exception_class NotImplementedError)
    /\ ~ raises (tracker_service.get_detections image) NotImplementedError
    /\ ~ raises (tracker_service.get_classifications image count) NotImplementedError
    /\ ~ raises (tracker_service.get_classifications_from_camera camera_name count)
           NotImplementedError.
Proof.
  intros; unfold raises; repeat split; discriminate.
Qed.

(** ** Equality of tracks *)

Lemma box_eqb_refl (b : Box) : box_eqb b b = true.
Proof. unfold box_eqb; rewrite !Z.eqb_refl; reflexivity. Qed.

Lemma box_eqb_eq (a b : Box) : box_eqb a b = true <-> a = b.
Proof.
  split; [| intros ->; apply box_eqb_refl].
  unfold box_eqb; rewrite !andb_true_iff, !Z.eqb_eq.
  intros [[[H1 H2] H3] H4]; destruct a, b; simpl in *; congruence.
Qed.

(** A float equals itself unless it is NaN. *)
Lemma float_eq_refl_iff (x : float64) : float_eq x x <-> x <> NaN.
Proof.
  unfold float_eq; destruct x; simpl; split; try congruence; try reflexivity.
  intros _; apply Qeq_bool_iff; reflexivity.
Qed.

Lemma float_eq_sym (x y : float64) : float_eq x y -> float_eq y x.
Proof.
  unfold float_eq; destruct x, y; simpl; try congruence.
  apply Qeq_bool_sym.
Qed.

Lemma float_eq_trans (x y z : float64) :
  float_eq x y -> float_eq y z -> float_eq x z.
Proof.
  unfold float_eq; destruct x, y, z; simpl; try congruence.
  rewrite !Qeq_bool_iff; intros H1 H2; rewrite H1; exact H2.
Qed.

Lemma array_equal_Forall2 (v w : list float64) :
  array_equal v w = true <-> Forall2 float_eq v w.
Proof.
  revert w; induction v as [| x v IH]; intros [| y w]; simpl.
  - split; [constructor | reflexivity].
  - split; [discriminate | intros H; inversion H].
  - split; [discriminate | intros H; inversion H].
  - rewrite andb_true_iff, IH; split.
    + intros [Hx Hv]; constructor; assumption.
    + intros H; inversion H; subst; split; assumption.
Qed.

Lemma Forall2_float_eq_refl_iff (v : list float64) :
  Forall2 float_eq v v <-> nan_free v.
Proof.
  unfold nan_free; induction v as [| x v IH]; split; intros H.
  - constructor.
  - constructor.
  - inversion H; subst; constructor; [apply float_eq_refl_iff | apply IH];
      assumption.
  - inversion H; subst; constructor; [apply float_eq_refl_iff | apply IH];
      assumption.
Qed.

Lemma Forall2_float_eq_sym (v w : list float64) :
  Forall2 float_eq v w -> Forall2 float_eq w v.
Proof. induction 1; constructor; [apply float_eq_sym |]; assumption. Qed.

Lemma Forall2_float_eq_trans (v w z : list float64) :
  Forall2 float_eq v w -> Forall2 float_eq w z -> Forall2 float_eq v z.
Proof.
  intros H; revert z; induction H as [| x y v w Hxy Hvw IH]; intros z Hz;
    inversion Hz; subst; constructor.
  - eapply float_eq_trans; eassumption.
  - apply IH; assumption.
Qed.

(** What [__eq__] computes on two tracks. *)
Lemma eq_iff (t u : Track) :
  __eq__ t (OTrack u) = true <->
  track_id t = track_id u /\ bbox t = bbox u
  /\ Forall2 float_eq (feature_vector t) (feature_vector u).
Proof.
  unfold __eq__, array_equal_box.
  rewrite !andb_true_iff, bool_decide_eq_true, box_eqb_eq, array_equal_Forall2.
  tauto.
Qed.

(** C10, at a feature vector with a NaN entry: the track agrees with
    itself on [track_id], [bbox] and [feature_vector], and does not compare
    equal to itself. *)
Lemma eq_fails_on_nan :
  let t := __init__ "7" (array 0 0 10 10) [Finite (1 # 2); NaN] 0%Q None true in
  track_id t = track_id t /\ bbox t = bbox t
  /\ feature_vector t = feature_vector t
  /\ __eq__ t (OTrack t) = false.
Proof. cbv zeta; repeat split. Qed.

(** C10, as the code has it: [__eq__] is decided by [track_id],
    [bbox] and [feature_vector] alone.  Two tracks compare equal exactly
    when their ids are equal, their boxes are equal and their feature
    vectors have the same length and equal entries as floats; the answer
    is the same for any other pair of tracks with the same three fields;
    so tracks that agree on the three fields and hold no NaN entry compare
    equal, whatever their other attributes; and a track compared with a
    value that is not a track gives false. *)
Theorem eq_by_id_bbox_feature :
  forall (t u : Track),
    (__eq__ t (OTrack u) = true <->
     track_id t = track_id u /\ bbox t = bbox u
     /\ Forall2 float_eq (feature_vector t) (feature_vector u))
    /\ (forall t' u' : Track,
          track_id t' = track_id t -> bbox t' = bbox t ->
          feature_vector t' = feature_vector t ->
          track_id u' = track_id u -> bbox u' = bbox u ->
          feature_vector u' = feature_vector u ->
          __eq__ t' (OTrack u') = __eq__ t (OTrack u))
    /\ (track_id t = track_id u -> bbox t = bbox u ->
        feature_vector t = feature_vector u -> nan_free (feature_vector t) ->
        __eq__ t (OTrack u) = true)
    /\ (forall o : object, (forall u', o <> OTrack u') -> __eq__ t o = false).
Proof.
  intros t u; split; [apply eq_iff |]; split; [| split].
  - intros t' u' H1 H2 H3 K1 K2 K3; unfold __eq__.
    rewrite H1, H2, H3, K1, K2, K3; reflexivity.
  - intros Hid Hb Hf Hn; apply eq_iff.
    split; [exact Hid |]; split; [exact Hb |].
    rewrite <- Hf; apply Forall2_float_eq_refl_iff, Hn.
  - intros o Hno; destruct o; try reflexivity.
    exfalso; eapply Hno; reflexivity.
Qed.

Lemma eq_by_id_bbox_feature_witness :
  let t := __init__ "7" (array 0 0 10 10) [Finite (1 # 2)] (1 # 10)%Q None true in
  let u := set_is_detected
             (increment_persistence
                (increment_age
                   (__init__ "7" (array 0 0 10 10) [Finite (1 # 2)] (3 # 10)%Q
                      (Some "person"%string) false))) in
  (age t <> age u /\ persistence t <> persistence u /\ distance t <> distance u
   /\ label t <> label u /\ is_candidate t <> is_candidate u)
  /\ nan_free (feature_vector t)
  /\ __eq__ t (OTrack u) = true
  /\ __eq__ t ONone = false.
Proof.
  cbv zeta.
  assert (Hn : nan_free [Finite (1 # 2)])
    by (constructor; [discriminate | constructor]).
  split; [repeat split; vm_compute; discriminate |].
  split; [exact Hn |]; split.
  - exact (proj1 (proj2 (proj2 (eq_by_id_bbox_feature
                      (__init__ "7" (array 0 0 10 10) [Finite (1 # 2)] (1 # 10)%Q
                         None true)
                      (set_is_detected
                         (increment_persistence
                            (increment_age
                               (__init__ "7" (array 0 0 10 10) [Finite (1 # 2)]
                                  (3 # 10)%Q (Some "person"%string) false)))))))
             eq_refl eq_refl eq_refl Hn).
  - refine (proj2 (proj2 (proj2 (eq_by_id_bbox_feature
                      (__init__ "7" (array 0 0 10 10) [Finite (1 # 2)] (1 # 10)%Q
                         None true)
                      (__init__ "7" (array 0 0 10 10) [Finite (1 # 2)] (1 # 10)%Q
                         None true))))
               ONone _).
    intros u' Hu; discriminate Hu.
Defined.

(** * Further properties of the code *)

(** ** Intersection over union, continued *)

Lemma inter_area_le_union (a b : Box) :
  0 < union_area a b -> inter_area a b <= union_area a b.
Proof.
  intros Hu; pose proof (inter_area_nonneg a b) as H0.
  destruct (Z.eq_dec (inter_area a b) 0) as [Hz | Hnz]; [lia |].
  assert (Hp : 0 < inter_area a b) by lia.
  pose proof (inter_area_le_left a b Hp) as Ha.
  pose proof (inter_area_le_left b a) as Hb.
  rewrite (inter_area_comm b a) in Hb; specialize (Hb Hp).
  unfold union_area; lia.
Qed.

(** X1: for boxes in the pixel range, ordered or not, the value of
    [iou] lies between 0 and 1. *)
Theorem iou_range :
  forall (t : Track) (o : Box),
    pixel_range (predicted_bbox t) -> pixel_range o ->
    exists q, iou t o = Return q /\ (0 <= q)%Q /\ (q <= 1)%Q.
Proof.
  intros t o Rt Ro; rewrite (iou_unfold t o Rt Ro).
  destruct (decide _) as [Hu | Hu].
  - eexists; split; [reflexivity |]; split.
    + apply Qle_shift_div_l.
      * change 0%Q with (inject_Z 0); rewrite <- Zlt_Qlt; lia.
      * rewrite Qmult_0_l; change 0%Q with (inject_Z 0); rewrite <- Zle_Qle.
        apply inter_area_nonneg.
    + apply Qle_shift_div_r.
      * change 0%Q with (inject_Z 0); rewrite <- Zlt_Qlt; lia.
      * rewrite Qmult_1_l, <- Zle_Qle; apply inter_area_le_union; lia.
  - eexists; split; [reflexivity |]; split; discriminate.
Qed.

Lemma iou_range_witness :
  let t := __init__ "1" (array 0 0 10 10) [] 0%Q None false in
  pixel_range (predicted_bbox t) /\ pixel_range (array 5 5 15 15)
  /\ exists q, iou t (array 5 5 15 15) = Return q /\ (0 <= q)%Q /\ (q <= 1)%Q.
Proof.
  cbv zeta.
  assert (R0 : pixel_range (array 0 0 10 10)) by (apply pixel_range_small; lia).
  assert (R1 : pixel_range (array 5 5 15 15)) by (apply pixel_range_small; lia).
  split; [exact R0 |]; split; [exact R1 |].
  exact (iou_range (__init__ "1" (array 0 0 10 10) [] 0%Q None false)
           (array 5 5 15 15) R0 R1).
Defined.

(** X2: [iou] does not depend on which of the two boxes is the track's:
    a track predicting [a] scored against [b] and a track predicting [b]
    scored against [a] get the same value. *)
Theorem iou_symmetric :
  forall (t u : Track), iou t (predicted_bbox u) = iou u (predicted_bbox t).
Proof.
  intros t u; unfold iou.
  destruct (predicted_bbox t) as [a1 a2 a3 a4], (predicted_bbox u) as [b1 b2 b3 b4].
  cbv beta iota zeta.
  rewrite (Z.max_comm b1 a1), (Z.max_comm b2 a2),
    (Z.min_comm b3 a3), (Z.min_comm b4 a4).
  unfold int64_add.
  rewrite (Z.add_comm (int64_mul (int64_sub b3 b1) (int64_sub b4 b2))).
  reflexivity.
Qed.

Lemma quotient_eq (i u : Z) (c : Q) :
  0 < u -> (inject_Z i / inject_Z u == c)%Q -> (inject_Z i == c * inject_Z u)%Q.
Proof.
  intros Hu H; rewrite <- H, Qmult_comm, Qmult_div_r; [reflexivity |].
  intros Hz; unfold Qeq in Hz; simpl in Hz; lia.
Qed.

Lemma inject_Z_eq (a b : Z) : (inject_Z a == inject_Z b)%Q -> a = b.
Proof. intros H; unfold Qeq in H; simpl in H; lia. Qed.

(** Equal products of dominated positive factors have equal factors. *)
Lemma product_squeeze (w h w' h' : Z) :
  0 < w -> 0 < h -> w <= w' -> h <= h' -> w * h = w' * h' -> w = w' /\ h = h'.
Proof. intros; split; nia. Qed.

Lemma inter_area_full (a b : Box) :
  0 < inter_area a b -> inter_area a b = area a ->
  x1 b <= x1 a /\ x2 a <= x2 b /\ y1 b <= y1 a /\ y2 a <= y2 b.
Proof.
  intros Hp He; destruct (inter_area_pos_sides a b Hp) as [Hw Hh].
  unfold inter_area, area in He; rewrite !Z.max_r in He by lia.
  apply product_squeeze in He; lia.
Qed.

(** X3: among boxes in the pixel range the score 1 is reached by the
    identical box only: for an ordered box [o] of positive area, [iou]
    against [o] is 1 exactly when the track's [predicted_bbox] is [o]. *)
Theorem iou_one_iff_same_box :
  forall (t : Track) (o : Box),
    pixel_range (predicted_bbox t) -> pixel_range o ->
    valid_box o -> 0 < area o ->
    exists q, iou t o = Return q /\ ((q == 1)%Q <-> predicted_bbox t = o).
Proof.
  intros t o Rt Ro Hv Ha; rewrite (iou_unfold t o Rt Ro).
  destruct (decide _) as [Hu | Hu].
  - eexists; split; [reflexivity |]; split.
    + intros Hq; apply quotient_eq in Hq; [| lia].
      rewrite Qmult_1_l in Hq; apply inject_Z_eq in Hq.
      assert (Hp : 0 < inter_area (predicted_bbox t) o) by lia.
      pose proof (inter_area_le_left (predicted_bbox t) o Hp) as Hl.
      pose proof (inter_area_le_left o (predicted_bbox t)) as Hr.
      rewrite (inter_area_comm o) in Hr; specialize (Hr Hp).
      unfold union_area in Hq.
      destruct (inter_area_full (predicted_bbox t) o Hp) as (A1 & A2 & A3 & A4);
        [lia |].
      destruct (inter_area_full o (predicted_bbox t)) as (B1 & B2 & B3 & B4);
        [rewrite inter_area_comm; lia | rewrite inter_area_comm; lia |].
      clear Rt Ro.
      destruct (predicted_bbox t), o; simpl in *; f_equal; lia.
    + intros He; rewrite He; unfold union_area.
      rewrite (inter_area_self o Hv).
      replace (area o + area o - area o) with (area o) by lia.
      apply Qmult_inv_r; intros Hz; unfold Qeq in Hz; simpl in Hz; lia.
  - eexists; split; [reflexivity |]; split; [discriminate |].
    intros He; rewrite He in Hu; unfold union_area in Hu.
    rewrite (inter_area_self o Hv) in Hu; lia.
Qed.

Lemma iou_one_iff_same_box_witness :
  let t := __init__ "1" (array 0 0 10 10) [] 0%Q None false in
  pixel_range (array 0 0 10 10)
  /\ valid_box (array 0 0 10 10) /\ 0 < area (array 0 0 10 10)
  /\ exists q, iou t (array 0 0 10 10) = Return q
       /\ ((q == 1)%Q <-> predicted_bbox t = array 0 0 10 10).
Proof.
  cbv zeta.
  assert (R0 : pixel_range (array 0 0 10 10)) by (apply pixel_range_small; lia).
  assert (Hv : valid_box (array 0 0 10 10)) by (split; simpl; lia).
  assert (Ha : 0 < area (array 0 0 10 10)) by (vm_compute; reflexivity).
  split; [exact R0 |]; split; [exact Hv |]; split; [exact Ha |].
  exact (iou_one_iff_same_box
           (__init__ "1" (array 0 0 10 10) [] 0%Q None false)
           (array 0 0 10 10) R0 R0 Hv Ha).
Defined.

Lemma area_nonneg (b : Box) : valid_box b -> 0 <= area b.
Proof. intros [Hx Hy]; unfold area; apply Z.mul_nonneg_nonneg; lia. Qed.

Lemma inter_area_zero_cases (a b : Box) :
  valid_box a -> valid_box b -> inter_area a b = 0 ->
  disjoint a b \/ area a = 0 \/ area b = 0.
Proof.
  intros [Hax Hay] [Hbx Hby] Hz; unfold inter_area in Hz.
  apply Z.mul_eq_0 in Hz; unfold disjoint, area.
  destruct Hz as [Hz | Hz].
  - destruct (Z_le_gt_dec (x2 a) (x1 b)); [left; lia |].
    destruct (Z_le_gt_dec (x2 b) (x1 a)); [left; lia |].
    destruct (Z.eq_dec (x1 a) (x2 a)) as [E | E];
      [right; left; rewrite E; lia |].
    destruct (Z.eq_dec (x1 b) (x2 b)) as [E' | E'];
      [right; right; rewrite E'; lia | lia].
  - destruct (Z_le_gt_dec (y2 a) (y1 b)); [left; lia |].
    destruct (Z_le_gt_dec (y2 b) (y1 a)); [left; lia |].
    destruct (Z.eq_dec (y1 a) (y2 a)) as [E | E];
      [right; left; rewrite E; lia |].
    destruct (Z.eq_dec (y1 b) (y2 b)) as [E' | E'];
      [right; right; rewrite E'; lia | lia].
Qed.

(** X4: between ordered boxes in the pixel range the score is 0 in
    these cases only: the boxes are disjoint, or one of them has no
    area. *)
Theorem iou_zero_iff_no_overlap :
  forall (t : Track) (o : Box),
    pixel_range (predicted_bbox t) -> pixel_range o ->
    valid_box (predicted_bbox t) -> valid_box o ->
    exists q, iou t o = Return q
      /\ ((q == 0)%Q <->
          disjoint (predicted_bbox t) o \/ area (predicted_bbox t) = 0 \/ area o = 0).
Proof.
  intros t o Rt Ro Hvt Hvo.
  pose proof (inter_area_nonneg (predicted_bbox t) o) as Hn.
  assert (Hback : disjoint (predicted_bbox t) o
                  \/ area (predicted_bbox t) = 0 \/ area o = 0 ->
                  inter_area (predicted_bbox t) o = 0).
  { intros [Hd | Hd]; [apply inter_area_disjoint, Hd |].
    apply inter_area_degenerate; lia. }
  rewrite (iou_unfold t o Rt Ro).
  destruct (decide _) as [Hu | Hu]; eexists; (split; [reflexivity |]); split.
  - intros Hq; apply quotient_eq in Hq; [| lia].
    rewrite Qmult_0_l in Hq; change 0%Q with (inject_Z 0) in Hq.
    apply inject_Z_eq in Hq.
    apply inter_area_zero_cases; assumption.
  - intros Hc; rewrite (Hback Hc); unfold Qdiv; rewrite Qmult_0_l; reflexivity.
  - intros _; apply inter_area_zero_cases; try assumption.
    destruct (Z.eq_dec (inter_area (predicted_bbox t) o) 0) as [E | E]; [exact E |].
    assert (Hp : 0 < inter_area (predicted_bbox t) o) by lia.
    pose proof (inter_area_le_left (predicted_bbox t) o Hp).
    pose proof (area_nonneg o Hvo).
    unfold union_area in Hu; lia.
  - reflexivity.
Qed.

Lemma iou_zero_iff_no_overlap_witness :
  let t := __init__ "1" (array 0 0 10 10) [] 0%Q None false in
  pixel_range (predicted_bbox t) /\ pixel_range (array 10 0 20 10)
  /\ valid_box (predicted_bbox t) /\ valid_box (array 10 0 20 10)
  /\ exists q, iou t (array 10 0 20 10) = Return q
       /\ ((q == 0)%Q <->
           disjoint (predicted_bbox t) (array 10 0 20 10)
           \/ area (predicted_bbox t) = 0 \/ area (array 10 0 20 10) = 0).
Proof.
  cbv zeta.
  assert (R0 : pixel_range (array 0 0 10 10)) by (apply pixel_range_small; lia).
  assert (R1 : pixel_range (array 10 0 20 10)) by (apply pixel_range_small; lia).
  assert (Hv : valid_box (array 0 0 10 10)) by (split; simpl; lia).
  assert (Hw : valid_box (array 10 0 20 10)) by (split; simpl; lia).
  split; [exact R0 |]; split; [exact R1 |]; split; [exact Hv |]; split; [exact Hw |].
  exact (iou_zero_iff_no_overlap
           (__init__ "1" (array 0 0 10 10) [] 0%Q None false)
           (array 10 0 20 10) R0 R1 Hv Hw).
Defined.

(** ** Histories of a track, continued *)

Lemma run_cons (t : Track) (o : operation) (os : list operation) :
  run t (o :: os) = run (step t o) os.
Proof. reflexivity. Qed.

Lemma box_add_scale_succ (b v : Box) (k : nat) :
  box_add (box_add b v) (box_scale (Z.of_nat k) v)
  = box_add b (box_scale (Z.of_nat (S k)) v).
Proof.
  destruct b, v; unfold box_add, box_scale; simpl x1; simpl y1; simpl x2; simpl y2.
  f_equal; lia.
Qed.

(** The state after [k] misses. *)
Lemma misses_state (k : nat) (t : Track) :
  bbox (run t (misses k)) = box_add (bbox t) (box_scale (Z.of_nat k) (velocity t))
  /\ age (run t (misses k)) = age t + Z.of_nat k
  /\ predicted_bbox (run t (misses k)) = predicted_bbox t
  /\ velocity (run t (misses k)) = velocity t
  /\ persistence (run t (misses k)) = persistence t
  /\ history (run t (misses k)) = history t.
Proof.
  revert t; induction k as [| k IH]; intros t.
  - simpl; repeat split; try lia.
    destruct (bbox t), (velocity t); unfold box_add, box_scale; simpl.
    f_equal; lia.
  - unfold misses; simpl repeat; rewrite run_cons.
    destruct (IH (step t IncrementAge)) as (Hb & Ha & Hp & Hv & Hs & Hh).
    unfold misses in *; rewrite Hb, Ha, Hp, Hv, Hs, Hh.
    change (step t IncrementAge) with (increment_age t).
    change (velocity (increment_age t)) with (velocity t).
    change (bbox (increment_age t)) with (box_add (bbox t) (velocity t)).
    change (age (increment_age t)) with (age t + 1).
    repeat split; [apply box_add_scale_succ | lia].
Qed.

(** X5: [k] consecutive misses move [bbox] by [k] times the velocity
    and add [k] to [age]; they leave [predicted_bbox], and with it the
    value of [iou] against every box, as well as velocity, persistence and
    history, as they were. *)
Theorem misses_extrapolate :
  forall (k : nat) (t : Track),
    bbox (run t (misses k)) = box_add (bbox t) (box_scale (Z.of_nat k) (velocity t))
    /\ age (run t (misses k)) = age t + Z.of_nat k
    /\ predicted_bbox (run t (misses k)) = predicted_bbox t
    /\ velocity (run t (misses k)) = velocity t
    /\ persistence (run t (misses k)) = persistence t
    /\ history (run t (misses k)) = history t
    /\ (forall o : Box, iou (run t (misses k)) o = iou t o).
Proof.
  intros k t; destruct (misses_state k t) as (Hb & Ha & Hp & Hv & Hs & Hh).
  repeat split; try assumption.
  intros o; apply iou_reads_prediction, Hp.
Qed.

Lemma history_step (t : Track) (o : operation) :
  history (step t o) = history t ++ observed [o].
Proof. destruct o; simpl; rewrite ?app_nil_r; reflexivity. Qed.

Lemma observed_cons (o : operation) (os : list operation) :
  observed (o :: os) = observed [o] ++ observed os.
Proof. destruct o; reflexivity. Qed.

Lemma history_run (os : list operation) (t : Track) :
  history (run t os) = history t ++ observed os.
Proof.
  revert t; induction os as [| o os IH]; intros t.
  - simpl; rewrite app_nil_r; reflexivity.
  - rewrite run_cons, IH, history_step, (observed_cons o os), app_assoc.
    reflexivity.
Qed.

(** X6: the history of a track is its first box followed by the boxes
    of its updates, in order and with repetitions: it only grows, by one
    entry per update, and the boxes extrapolated on a miss never enter
    it. *)
Theorem history_is_observations :
  forall tid b0 f0 d0 l0 c0 (os : list operation),
    history (run (__init__ tid b0 f0 d0 l0 c0) os) = b0 :: observed os.
Proof. intros; rewrite history_run; reflexivity. Qed.

(** X7: [update] measures the velocity from the box the track holds
    at that moment: after two updates it is the difference of the two
    observed boxes, and the prediction is the second box moved by that
    difference; after [k] misses it is the difference between the new box
    and the box extrapolated by [k] steps, not the last observed one. *)
Theorem update_velocity_composition :
  forall (t : Track) (b1 b2 : Box) (f1 f2 : list float64) (d1 d2 : Q) (k : nat),
    velocity (update (update t b1 f1 d1) b2 f2 d2) = box_sub b2 b1
    /\ predicted_bbox (update (update t b1 f1 d1) b2 f2 d2)
       = box_add b2 (box_sub b2 b1)
    /\ velocity (update (run t (misses k)) b2 f2 d2)
       = box_sub b2 (box_add (bbox t) (box_scale (Z.of_nat k) (velocity t)))
    /\ (velocity (update t (bbox t) f1 d1) = zeros4
        /\ predicted_bbox (update t (bbox t) f1 d1) = bbox t).
Proof.
  intros; split; [reflexivity |]; split; [reflexivity |]; split.
  - destruct (misses_state k t) as (Hb & _).
    change (velocity (update (run t (misses k)) b2 f2 d2))
      with (box_sub b2 (bbox (run t (misses k)))).
    rewrite Hb; reflexivity.
  - change (velocity (update t (bbox t) f1 d1)) with (box_sub (bbox t) (bbox t)).
    change (predicted_bbox (update t (bbox t) f1 d1))
      with (box_add (bbox t) (box_sub (bbox t) (bbox t))).
    destruct (bbox t) as [a1 a2 a3 a4]; unfold box_sub, box_add, zeros4; simpl.
    split; f_equal; lia.
Qed.

Lemma step_is_candidate (t : Track) (o : operation) :
  is_candidate (step t o) = is_candidate t /\ label (step t o) = label t.
Proof. destruct o; split; reflexivity. Qed.

Lemma run_status_label (os : list operation) (t : Track) :
  is_candidate (run t os) = is_candidate t /\ label (run t os) = label t.
Proof.
  revert t; induction os as [| o os IH]; intros t; [split; reflexivity |].
  rewrite run_cons; destruct (IH (step t o)) as [Hc Hl].
  destruct (step_is_candidate t o) as [Hc' Hl'].
  split; congruence.
Qed.

(** X8: no method of the class changes [is_candidate] or [label]: along
    every history a track keeps the status and the label it was built
    with; a candidate is never promoted by the track itself. *)
Theorem status_and_label_constant :
  forall (os : list operation) (t : Track),
    is_candidate (run t os) = is_candidate t /\ label (run t os) = label t.
Proof. intros os t; apply run_status_label. Qed.

(** ** Equality of tracks, continued *)

(** X9: two tracks compare equal exactly when their ids are equal,
    their boxes are equal and their feature vectors have the same length
    and equal entries; vectors of different lengths never compare equal. *)
Theorem eq_characterised :
  forall (t u : Track),
    (__eq__ t (OTrack u) = true <->
     track_id t = track_id u /\ bbox t = bbox u
     /\ Forall2 float_eq (feature_vector t) (feature_vector u))
    /\ (length (feature_vector t) <> length (feature_vector u) ->
        __eq__ t (OTrack u) = false).
Proof.
  intros t u; pose proof (eq_iff t u) as Hiff.
  split; [exact Hiff |].
  intros Hlen; destruct (__eq__ t (OTrack u)) eqn:E; [| reflexivity].
  exfalso; apply Hlen.
  destruct (proj1 Hiff eq_refl) as (_ & _ & Hf).
  eapply Forall2_length, Hf.
Qed.

Lemma eq_characterised_witness :
  let t := __init__ "7" (array 0 0 10 10) [Finite (1 # 2)] 0%Q None true in
  let u := __init__ "7" (array 0 0 10 10) [Finite (1 # 2); Finite (1 # 3)] 0%Q
             None true in
  length (feature_vector t) <> length (feature_vector u)
  /\ __eq__ t (OTrack u) = false.
Proof.
  cbv zeta.
  assert (H : length [Finite (1 # 2)] <> length [Finite (1 # 2); Finite (1 # 3)])
    by (simpl; lia).
  split; [exact H |].
  exact (proj2 (eq_characterised
                  (__init__ "7" (array 0 0 10 10) [Finite (1 # 2)] 0%Q None true)
                  (__init__ "7" (array 0 0 10 10) [Finite (1 # 2); Finite (1 # 3)]
                     0%Q None true))
           H).
Defined.

Lemma eq_self_iff (t u : Track) :
  track_id u = track_id t -> bbox u = bbox t ->
  feature_vector u = feature_vector t ->
  __eq__ u (OTrack t) = true <-> nan_free (feature_vector t).
Proof.
  intros H1 H2 H3; rewrite eq_iff, H3, Forall2_float_eq_refl_iff; tauto.
Qed.

(** X10: on tracks [__eq__] is symmetric and transitive: the answer
    does not depend on the side a track stands on, and two tracks equal to
    a third are equal; a track equals itself exactly when its feature
    vector holds no NaN. *)
Theorem eq_equivalence :
  forall (t u v : Track),
    (__eq__ t (OTrack t) = true <-> nan_free (feature_vector t))
    /\ __eq__ t (OTrack u) = __eq__ u (OTrack t)
    /\ (__eq__ t (OTrack u) = true -> __eq__ u (OTrack v) = true ->
        __eq__ t (OTrack v) = true).
Proof.
  intros t u v; split; [| split].
  - apply eq_self_iff; reflexivity.
  - destruct (__eq__ t (OTrack u)) eqn:E1, (__eq__ u (OTrack t)) eqn:E2;
      try reflexivity; exfalso.
    + apply eq_iff in E1; destruct E1 as (H1 & H2 & H3).
      assert (__eq__ u (OTrack t) = true) as E
        by (apply eq_iff; repeat split; auto using Forall2_float_eq_sym).
      congruence.
    + apply eq_iff in E2; destruct E2 as (H1 & H2 & H3).
      assert (__eq__ t (OTrack u) = true) as E
        by (apply eq_iff; repeat split; auto using Forall2_float_eq_sym).
      congruence.
  - rewrite !eq_iff; intros (H1 & H2 & H3) (K1 & K2 & K3).
    repeat split; try congruence.
    eapply Forall2_float_eq_trans; eassumption.
Qed.

Lemma eq_equivalence_witness :
  let t := __init__ "7" (array 0 0 10 10) [Finite (1 # 2)] 0%Q None true in
  let u := increment_persistence
             (__init__ "7" (array 0 0 10 10) [Finite (2 # 4)] (1 # 5)%Q None false) in
  let v := unset_is_detected
             (__init__ "7" (array 0 0 10 10) [Finite (3 # 6)] (1 # 3)%Q
                (Some "person"%string) true) in
  __eq__ t (OTrack u) = true /\ __eq__ u (OTrack v) = true
  /\ __eq__ t (OTrack v) = true.
Proof.
  cbv zeta.
  assert (H1 : __eq__ (__init__ "7" (array 0 0 10 10) [Finite (1 # 2)] 0%Q None true)
                 (OTrack (increment_persistence
                     (__init__ "7" (array 0 0 10 10) [Finite (2 # 4)] (1 # 5)%Q
                        None false)))
               = true) by (vm_compute; reflexivity).
  assert (H2 : __eq__ (increment_persistence
                     (__init__ "7" (array 0 0 10 10) [Finite (2 # 4)] (1 # 5)%Q
                        None false))
                 (OTrack (unset_is_detected
                     (__init__ "7" (array 0 0 10 10) [Finite (3 # 6)] (1 # 3)%Q
                        (Some "person"%string) true)))
               = true) by (vm_compute; reflexivity).
  split; [exact H1 |]; split; [exact H2 |].
  exact (proj2 (proj2 (eq_equivalence _ _ _)) H1 H2).
Defined.

(** X11: which methods keep a track equal to what it was.  For a track
    whose feature vector holds no NaN, [increment_persistence],
    [set_is_detected] and [unset_is_detected] always do, [increment_age]
    does exactly when the velocity is zero, and [change_track_id] exactly
    when the new id is the old one; with a NaN entry none of them does.
    [update] does exactly when the new box is the current one and the new
    feature vector has the entries of the current one, as floats. *)
Theorem eq_after_operation :
  forall (t : Track),
    (__eq__ (increment_persistence t) (OTrack t) = true
     <-> nan_free (feature_vector t))
    /\ (__eq__ (set_is_detected t) (OTrack t) = true
        <-> nan_free (feature_vector t))
    /\ (__eq__ (unset_is_detected t) (OTrack t) = true
        <-> nan_free (feature_vector t))
    /\ (__eq__ (increment_age t) (OTrack t) = true
        <-> velocity t = zeros4 /\ nan_free (feature_vector t))
    /\ (forall s, __eq__ (change_track_id t s) (OTrack t) = true
                  <-> s = track_id t /\ nan_free (feature_vector t))
    /\ (forall b f d,
          __eq__ (update t b f d) (OTrack t) = true
          <-> b = bbox t /\ Forall2 float_eq f (feature_vector t)).
Proof.
  intros t.
  split; [| split; [| split; [| split; [| split]]]].
  - apply eq_self_iff; reflexivity.
  - apply eq_self_iff; reflexivity.
  - apply eq_self_iff; reflexivity.
  - rewrite eq_iff.
    change (bbox (increment_age t)) with (box_add (bbox t) (velocity t)).
    change (feature_vector (increment_age t)) with (feature_vector t).
    rewrite Forall2_float_eq_refl_iff.
    split.
    + intros (_ & Hb & Hn); split; [| exact Hn].
      apply (box_add_cancel (bbox t)); symmetry; exact Hb.
    + intros [Hv Hn]; repeat split; [| exact Hn].
      rewrite Hv; destruct (bbox t); unfold box_add, zeros4; simpl; f_equal; lia.
  - intros s; rewrite eq_iff.
    change (feature_vector (change_track_id t s)) with (feature_vector t).
    rewrite Forall2_float_eq_refl_iff; simpl; tauto.
  - intros b f d; rewrite eq_iff; simpl; tauto.
Qed.

(** ** The reader-facing detection, continued *)

(** The four labels a candidate can show. *)
Lemma progress_indicator_three (p : Z) :
  0 <= p ->
  progress_indicator p 3
  = nth (Z.to_nat (Z.min p 3))
      ["tracking  [ . . .]"; "tracking  [ * . .]";
       "tracking  [ * * .]"; "tracking  [ * * *]"]%string ""%string.
Proof.
  intros Hp; unfold progress_indicator.
  assert (Hc : Z.min p 3 = 0 \/ Z.min p 3 = 1 \/ Z.min p 3 = 2 \/ Z.min p 3 = 3)
    by lia.
  destruct Hc as [-> | [-> | [-> | ->]]]; reflexivity.
Qed.

(** X12: a track built as a candidate shows, after every history, one
    of four labels of the same width, chosen by its persistence: the bar
    has as many stars as the track has been counted persistent, up to
    three, and stays full from then on. *)
Theorem candidate_label :
  forall tid b0 f0 d0 l0 (os : list operation),
    let t := run (__init__ tid b0 f0 d0 l0 true) os in
    _get_class_name t
    = nth (Z.to_nat (Z.min (persistence t) 3))
        ["tracking  [ . . .]"; "tracking  [ * . .]";
         "tracking  [ * * .]"; "tracking  [ * * *]"]%string ""%string
    /\ String.length (_get_class_name t) = 18%nat
    /\ (3 <= persistence t -> _get_class_name t = "tracking  [ * * *]"%string).
Proof.
  intros tid b0 f0 d0 l0 os t.
  destruct (run_counters (__init__ tid b0 f0 d0 l0 true) os) as [_ Hp];
    [simpl; lia | simpl; lia |].
  change (persistence (__init__ tid b0 f0 d0 l0 true)) with 0 in Hp.
  fold t in Hp.
  assert (Hn : _get_class_name t = progress_indicator (persistence t) 3).
  { rewrite get_class_name_cases; subst t.
    destruct (run_status_label os (__init__ tid b0 f0 d0 l0 true)) as [-> _].
    rewrite run_min_persistence; reflexivity. }
  rewrite Hn, (progress_indicator_three _ Hp).
  assert (Hc : Z.min (persistence t) 3 = 0 \/ Z.min (persistence t) 3 = 1
               \/ Z.min (persistence t) 3 = 2 \/ Z.min (persistence t) 3 = 3)
    by lia.
  split; [reflexivity |]; split.
  - destruct Hc as [-> | [-> | [-> | ->]]]; reflexivity.
  - intros H3; rewrite Z.min_r by lia; reflexivity.
Qed.

Lemma candidate_label_witness :
  let t := run (__init__ "7" (array 0 0 10 10) [] 0%Q None true)
             [IncrementPersistence; IncrementPersistence; IncrementPersistence;
              IncrementAge; IncrementPersistence] in
  3 <= persistence t /\ _get_class_name t = "tracking  [ * * *]"%string.
Proof.
  cbv zeta.
  assert (H : 3 <= persistence
                 (run (__init__ "7" (array 0 0 10 10) [] 0%Q None true)
                    [IncrementPersistence; IncrementPersistence;
                     IncrementPersistence; IncrementAge; IncrementPersistence]))
    by (vm_compute; discriminate).
  split; [exact H |].
  exact (proj2 (proj2 (candidate_label "7" (array 0 0 10 10) [] 0%Q None
                         [IncrementPersistence; IncrementPersistence;
                          IncrementPersistence; IncrementAge; IncrementPersistence]))
           H).
Defined.

Lemma truthy_size (crop : gmap string Q) :
  truthy (Some crop) = true <-> size crop <> 0%nat.
Proof.
  unfold truthy; destruct (Nat.eqb_spec (size crop) 0) as [E | E]; simpl.
  - split; [discriminate | intros H; contradiction].
  - split; [intros _; exact E | reflexivity].
Qed.

Lemma get_detection_no_dimension (t : Track) (crop : gmap string Q)
    (ow oh : option Z) :
  size crop <> 0%nat -> ow = None \/ oh = None ->
  get_detection t (Some crop) ow oh = Raise TypeError.
Proof.
  intros Hs Hn; unfold get_detection.
  rewrite (proj2 (truthy_size crop) Hs).
  destruct (bbox t) as [a1 a2 a3 a4].
  destruct ow as [w |], oh as [h |]; try reflexivity.
  destruct Hn; discriminate.
Qed.

(** X13: with a non-empty crop region, a missing image width or
    height makes [get_detection] raise [TypeError], whatever the track
    holds; the product with [None] fails before anything is reported. *)
Theorem get_detection_missing_dimension :
  forall (t : Track) (crop : gmap string Q) (ow oh : option Z),
    size crop <> 0%nat -> ow = None \/ oh = None ->
    get_detection t (Some crop) ow oh = Raise TypeError.
Proof. intros t crop ow oh Hs Hn; apply get_detection_no_dimension; assumption. Qed.

Lemma get_detection_missing_dimension_witness :
  let t := __init__ "1" (array 10 10 20 20) [] 0%Q None false in
  size central_crop <> 0%nat
  /\ get_detection t (Some central_crop) (Some 400) None = Raise TypeError.
Proof.
  cbv zeta.
  assert (Hs : size central_crop <> 0%nat) by (vm_compute; discriminate).
  split; [exact Hs |].
  exact (get_detection_missing_dimension
           (__init__ "1" (array 10 10 20 20) [] 0%Q None false)
           central_crop (Some 400) None Hs (or_intror eq_refl)).
Defined.

(** X14: an empty crop region is no crop region: with [{}] as with
    [None] the box is reported as it is, whether or not the image
    dimensions are given. *)
Theorem get_detection_empty_crop :
  forall (t : Track) (ow oh : option Z),
    get_detection t (Some ∅) ow oh = get_detection t None None None
    /\ get_detection t None ow oh = get_detection t None None None
    /\ exists d, get_detection t (Some ∅) ow oh = Return d
         /\ (x_min d, y_min d, x_max d, y_max d)
            = (x1 (bbox t), y1 (bbox t), x2 (bbox t), y2 (bbox t)).
Proof.
  intros t ow oh.
  assert (He : truthy (Some (∅ : gmap string Q)) = false) by reflexivity.
  rewrite (get_detection_uncropped t (Some ∅) ow oh He).
  rewrite (get_detection_uncropped t None ow oh eq_refl).
  rewrite (get_detection_uncropped t None None None eq_refl).
  split; [reflexivity |]; split; [reflexivity |].
  eexists; split; reflexivity.
Qed.

(** X15: of a crop region only [x1_rel] and [y1_rel] are read: two
    non-empty crop regions that agree on these two keys, present or
    missing, give the same outcome, whatever else they hold. *)
Theorem get_detection_reads_origin_only :
  forall (t : Track) (c1 c2 : gmap string Q) (ow oh : option Z),
    size c1 <> 0%nat -> size c2 <> 0%nat ->
    c1 !! "x1_rel"%string = c2 !! "x1_rel"%string ->
    c1 !! "y1_rel"%string = c2 !! "y1_rel"%string ->
    get_detection t (Some c1) ow oh = get_detection t (Some c2) ow oh.
Proof.
  intros t c1 c2 ow oh H1 H2 Hx Hy.
  destruct ow as [w |], oh as [h |].
  - rewrite (get_detection_cropped t c1 w h H1), (get_detection_cropped t c2 w h H2).
    unfold crop_offset; rewrite Hx, Hy; reflexivity.
  - rewrite !get_detection_no_dimension by (assumption || (right; reflexivity)).
    reflexivity.
  - rewrite !get_detection_no_dimension by (assumption || (left; reflexivity)).
    reflexivity.
  - rewrite !get_detection_no_dimension by (assumption || (left; reflexivity)).
    reflexivity.
Qed.

Lemma get_detection_reads_origin_only_witness :
  let t := __init__ "1" (array 10 10 20 20) [] 0%Q None false in
  let c := <["x1_rel"%string := (1 # 4)%Q]>
             (<["y1_rel"%string := (1 # 4)%Q]> (∅ : gmap string Q)) in
  get_detection t (Some central_crop) (Some 400) (Some 400)
  = get_detection t (Some c) (Some 400) (Some 400).
Proof.
  cbv zeta.
  refine (get_detection_reads_origin_only
            (__init__ "1" (array 10 10 20 20) [] 0%Q None false)
            central_crop
            (<["x1_rel"%string := (1 # 4)%Q]>
               (<["y1_rel"%string := (1 # 4)%Q]> (∅ : gmap string Q)))
            (Some 400) (Some 400) _ _ _ _);
    vm_compute; solve [discriminate | reflexivity].
Defined.










Lemma misses_keep_identity (k : nat) (t : Track) :
  distance (run t (misses k)) = distance t
  /\ track_id (run t (misses k)) = track_id t.
Proof.
  revert t; induction k as [| k IH]; intros t; [split; reflexivity |].
  unfold misses; simpl repeat; rewrite run_cons.
  exact (IH (step t IncrementAge)).
Qed.

(** X18: what is reported follows the track's [bbox]: right after an
    update it is the observed box with confidence [1 - distance'], and
    after [k] further misses it is that box moved [k] times by the
    velocity, with the same confidence and the same class name: misses do
    not lower the confidence. *)
Theorem get_detection_after_update_and_misses :
  forall (t : Track) (b : Box) (f : list float64) (d : Q) (k : nat)
         (ow oh : option Z),
    exists det,
      get_detection (run (update t b f d) (misses k)) None ow oh = Return det
      /\ (x_min det, y_min det, x_max det, y_max det)
         = (let e := box_add b (box_scale (Z.of_nat k) (box_sub b (bbox t))) in
            (x1 e, y1 e, x2 e, y2 e))
      /\ confidence det = (1 - d)%Q
      /\ class_name det = _get_class_name t.
Proof.
  intros t b f d k ow oh.
  rewrite (get_detection_uncropped _ None ow oh eq_refl).
  eexists; split; [reflexivity |]; simpl.
  destruct (misses_state k (update t b f d)) as (Hb & Ha & Hp & Hv & Hs & Hh).
  destruct (misses_keep_identity k (update t b f d)) as [Hd Hid].
  split; [rewrite Hb; reflexivity |]; split.
  - rewrite Hd; reflexivity.
  - rewrite !get_class_name_cases.
    destruct (run_status_label (misses k) (update t b f d)) as [-> _].
    rewrite Hs, run_min_persistence, Hid; reflexivity.
Qed.

(** ** The declared attributes *)

(** X19: every default declared in [config.py] satisfies the bounds or
    the allowlist declared with it, and the thirty-three attributes of the
    four configuration classes read pairwise distinct keys. *)
Theorem declared_defaults_admissible :
  forallb config_table.default_admissible config_table.TrackerConfig_attributes = true
  /\ NoDup (map config_table.field_name config_table.TrackerConfig_attributes)
  /\ length config_table.TrackerConfig_attributes = 33%nat.
Proof.
  split; [vm_compute; reflexivity |]; split; [| reflexivity].
  apply (bool_decide_unpack
           (NoDup (map config_table.field_name config_table.TrackerConfig_attributes))).
  vm_compute; exact I.
Qed.

(** ** The configured service *)

Import service.

(** X20: the two camera readers check the camera name differently:
    [get_detections_from_camera] answers for the configured name and for
    the empty name, and raises [ValueError] for any other;
    [capture_all_from_camera] raises [ValueError], naming both names, for
    every name but the configured one, the empty one included, whatever is
    asked for. *)
Theorem camera_name_checks :
  forall (s : TrackerService) (n : string) (ri rc rd ro : bool),
    (n = camera_name s \/ n = ""%string ->
     get_detections_from_camera s n = Done (tracker_get_current_detections s))
    /\ (n <> camera_name s -> n <> ""%string ->
        get_detections_from_camera s n
        = Failed (ValueError
            "The camera_name doesn't match the camera_name configured for the tracker."))
    /\ (n <> camera_name s ->
        capture_all_from_camera s n ri rc rd ro
        = Failed (ValueError
            (String.append "The camera_name "
               (String.append n
                  (String.append
                     " doesn't match the camera_name configured for the tracker: "
                     (String.append (camera_name s) "."))))))
    /\ (n = camera_name s ->
        capture_all_from_camera s n false rc rd ro
        = Done {| image := None;
                  detections := if rd then Some (tracker_get_current_detections s)
                                else None |}).
Proof.
  intros s n ri rc rd ro; split; [| split; [| split]].
  - intros H; unfold get_detections_from_camera.
    destruct H as [-> | ->].
    + rewrite bool_decide_eq_true_2 by reflexivity; reflexivity.
    + rewrite (bool_decide_eq_true_2 (""%string = ""%string)) by reflexivity.
      rewrite andb_false_r; reflexivity.
  - intros H1 H2; unfold get_detections_from_camera.
    rewrite !bool_decide_eq_false_2 by assumption; reflexivity.
  - intros H; unfold capture_all_from_camera.
    rewrite bool_decide_eq_false_2 by assumption; reflexivity.
  - intros ->; unfold capture_all_from_camera.
    rewrite bool_decide_eq_true_2 by reflexivity; reflexivity.
Qed.

(** A service configured for the camera "cam" that tracks nothing and
    whose camera is out of order. *)
Lemma camera_name_checks_witness :
  let s := mkTrackerService "cam" (Failed (Propagated "camera offline")) [] in
  get_detections_from_camera s "" = Done []
  /\ get_detections_from_camera s "other"
     = Failed (ValueError
         "The camera_name doesn't match the camera_name configured for the tracker.")
  /\ capture_all_from_camera s "" false false true false
     = Failed (ValueError
         "The camera_name  doesn't match the camera_name configured for the tracker: cam.")
  /\ capture_all_from_camera s "cam" false false true false
     = Done {| image := None; detections := Some [] |}.
Proof.
  cbv zeta.
  split; [| split; [| split]].
  - exact (proj1 (camera_name_checks
                    (mkTrackerService "cam" (Failed (Propagated "camera offline")) [])
                    "" false false true false)
             (or_intror eq_refl)).
  - refine (proj1 (proj2 (camera_name_checks
                    (mkTrackerService "cam" (Failed (Propagated "camera offline")) [])
                    "other" false false true false)) _ _);
      simpl; discriminate.
  - refine (proj1 (proj2 (proj2 (camera_name_checks
                    (mkTrackerService "cam" (Failed (Propagated "camera offline")) [])
                    "" false false true false))) _);
      simpl; discriminate.
  - exact (proj2 (proj2 (proj2 (camera_name_checks
                    (mkTrackerService "cam" (Failed (Propagated "camera offline")) [])
                    "cam" false false true false)))
             eq_refl).
Defined.

(** X21: what [capture_all_from_camera] hands back for the configured
    name: the camera is asked for an image only when [return_image] is
    set, and then a failure of the camera is the failure of the call, even
    if only detections were wanted besides; the detections are those
    [get_detections_from_camera] gives, present exactly when
    [return_detections] is set; [return_classifications] and
    [return_object_point_clouds] change nothing. *)
Theorem capture_all_contents :
  forall (s : TrackerService) (n : string) (ri rc rd ro : bool),
    capture_all_from_camera s n ri rc rd ro
    = capture_all_from_camera s n ri false rd false
    /\ (n = camera_name s ->
        (forall i, camera_get_image s = Done i ->
           capture_all_from_camera s n true rc rd ro
           = Done {| image := Some i;
                     detections := if rd then Some (tracker_get_current_detections s)
                                   else None |})
        /\ (forall e, camera_get_image s = Failed e ->
              capture_all_from_camera s n true rc rd ro = Failed e)
        /\ (forall r, capture_all_from_camera s n ri rc true ro = Done r ->
              Done (default [] (detections r)) = get_detections_from_camera s n
              /\ is_Some (detections r))
        /\ (forall r, capture_all_from_camera s n ri rc false ro = Done r ->
              detections r = None)
        /\ (forall r, capture_all_from_camera s n ri rc rd ro = Done r ->
              (is_Some (image r) <-> ri = true))).
Proof.
  intros s n ri rc rd ro; split; [reflexivity |].
  intros ->; unfold capture_all_from_camera, get_detections_from_camera.
  rewrite !bool_decide_eq_true_2 by reflexivity; simpl.
  split; [| split; [| split; [| split]]].
  - intros i ->; reflexivity.
  - intros e ->; reflexivity.
  - intros r Hr; destruct ri; [destruct (camera_get_image s); [| discriminate] |];
      injection Hr as <-; simpl; split; eauto.
  - intros r Hr; destruct ri; [destruct (camera_get_image s); [| discriminate] |];
      injection Hr as <-; reflexivity.
  - intros r Hr; destruct ri; [destruct (camera_get_image s); [| discriminate] |];
      injection Hr as <-; simpl; split; eauto; try discriminate.
    intros [x Hx]; discriminate.
Qed.

Lemma capture_all_contents_witness :
  let s := mkTrackerService "cam" (Failed (Propagated "camera offline")) [] in
  camera_get_image s = Failed (Propagated "camera offline")
  /\ capture_all_from_camera s "cam" true false true false
     = Failed (Propagated "camera offline").
Proof.
  cbv zeta; split; [reflexivity |].
  exact (proj1 (proj2 (proj2 (capture_all_contents
                  (mkTrackerService "cam" (Failed (Propagated "camera offline")) [])
                  "cam" true false true false) eq_refl))
           (Propagated "camera offline") eq_refl).
Defined.

(** [validate_config] in one piece: the three names as the configuration
    holds them, then the verdict of the attribute validation. *)
Lemma validate_config_unfold
    (TrackerConfig : gmap string (option config.Value) -> option raised)
    (fields : gmap string (option config.Value)) :
  validate_config TrackerConfig fields
  = match TrackerConfig (after_reads fields) with
    | Some e => Failed e
    | None =>
        Done ([configured fields "camera_name"]
              ++ (if nonempty (configured fields "detector_name")
                  then [configured fields "detector_name"] else [])
              ++ (if nonempty (configured fields "embedder_name")
                  then [configured fields "embedder_name"] else []))
    end.
Proof.
  unfold validate_config, after_reads, configured, getitem.
  destruct (fields !! "camera_name"%string) as [c |] eqn:Ec; simpl.
  all: rewrite ?lookup_insert_ne by discriminate.
  all: destruct (fields !! "detector_name"%string) as [d |] eqn:Ed; simpl.
  all: rewrite ?lookup_insert_ne by discriminate.
  all: destruct (fields !! "embedder_name"%string) as [e |] eqn:Ee; simpl.
  all: destruct (TrackerConfig _) as [err |]; try reflexivity.
  all: repeat match goal with
              | |- context [nonempty ?s] => destruct (nonempty s)
              end; reflexivity.
Qed.

(** X22: when the attributes are accepted, [validate_config] returns
    exactly this list: the camera name as the configuration holds it (the
    empty string when [camera_name] is missing or is not a string), then
    the detector name if it is not empty, then the embedder name if it is
    not empty; so between one and three names, of which only the first can
    be empty.  When the validation of the attributes raises, so does
    [validate_config]. *)
Theorem validate_config_dependencies :
  forall (TrackerConfig : gmap string (option config.Value) -> option raised)
         (fields : gmap string (option config.Value)),
    (forall e, TrackerConfig (after_reads fields) = Some e ->
       validate_config TrackerConfig fields = Failed e)
    /\ (TrackerConfig (after_reads fields) = None ->
        exists deps,
          validate_config TrackerConfig fields = Done deps
          /\ deps = [configured fields "camera_name"]
                    ++ (if nonempty (configured fields "detector_name")
                        then [configured fields "detector_name"] else [])
                    ++ (if nonempty (configured fields "embedder_name")
                        then [configured fields "embedder_name"] else [])
          /\ (1 <= length deps <= 3)%nat
          /\ head deps = Some (configured fields "camera_name")
          /\ (forall d, d ∈ tail deps -> d <> ""%string)).
Proof.
  intros TC fields; rewrite validate_config_unfold; split.
  - intros e ->; reflexivity.
  - intros ->; eexists; split; [reflexivity |]; split; [reflexivity |].
    unfold nonempty.
    destruct (bool_decide (configured fields "detector_name" = ""%string)) eqn:Ed;
      destruct (bool_decide (configured fields "embedder_name" = ""%string)) eqn:Ee;
      simpl;
      try apply bool_decide_eq_true_1 in Ed; try apply bool_decide_eq_false_1 in Ed;
      try apply bool_decide_eq_true_1 in Ee; try apply bool_decide_eq_false_1 in Ee.
    all: split; [lia |]; split; [reflexivity |].
    all: intros d Hd; rewrite ?elem_of_cons, ?elem_of_nil in Hd.
    all: intuition congruence.
Qed.

Lemma validate_config_dependencies_witness :
  let accept := fun _ : gmap string (option config.Value) => @None raised in
  let refuse := fun _ : gmap string (option config.Value) =>
                  Some (Propagated "invalid attribute") in
  let fields : gmap string (option config.Value) :=
    <["detector_name"%string := Some (config.number_value 3%Q)]>
      (<["embedder_name"%string := Some (config.string_value "embedder")]> ∅) in
  (accept (after_reads fields) = None
   /\ exists deps,
        validate_config accept fields = Done deps
        /\ head deps = Some ""%string
        /\ deps = [""; "embedder"]%string)
  /\ validate_config refuse fields = Failed (Propagated "invalid attribute").
Proof.
  cbv zeta; split.
  - destruct (proj2 (validate_config_dependencies
                       (fun _ : gmap string (option config.Value) => @None raised)
                       (<["detector_name"%string := Some (config.number_value 3%Q)]>
                          (<["embedder_name"%string :=
                               Some (config.string_value "embedder")]> ∅)))
                eq_refl)
      as (deps & Hd & _ & _ & Hh & _).
    split; [reflexivity |].
    exists deps; split; [exact Hd |]; split; [exact Hh |].
    vm_compute in Hd; injection Hd as <-; reflexivity.
  - exact (proj1 (validate_config_dependencies
                    (fun _ : gmap string (option config.Value) =>
                       Some (Propagated "invalid attribute"))
                    (<["detector_name"%string := Some (config.number_value 3%Q)]>
                       (<["embedder_name"%string :=
                            Some (config.string_value "embedder")]> ∅)))
             (Propagated "invalid attribute") eq_refl).
Defined.
